(** * mausignald client layer and the disappearing-message repository

    A shallow embedding of [mausignald/signald.py] ([SignaldClient]) and of
    [mautrix_signal/db/disappearing_message.py] ([DisappearingMessage]).

    Coroutines are embedded as computations in a state-and-exception monad
    over the client object: an [await] is a sequential bind, a [raise]
    leaves the mutations done so far in place.  The transport
    ([SignaldRPCClient.request] / [request_v1]), the registered event
    handlers and the Python runtime (set iteration order, [str()] of a
    decoded JSON value) are the environment of the client; they are taken as
    interfaces.  Interleavings with other tasks at an [await] are not part of
    the model, an event handler is taken not to call back into the client,
    and the numbers of a decoded JSON value are the integers. *)

From Stdlib Require Import ZArith.
From stdpp Require Import base list strings.

Local Open Scope string_scope.
Local Open Scope list_scope.
Set Warnings "-register-all".

(** ** Decoded JSON values and the Python operations used on them *)

Inductive json : Type :=
| JNull
| JBool (b : bool)
| JNum (n : Z)
| JStr (s : string)
| JList (l : list json)
| JObj (kvs : list (string * json)).

(** Modelled from the spec: the error classes of [mausignald/errors.py]
    (TransportError is [UnexpectedError], UnexpectedResponseType is
    [UnexpectedResponse], carrying the actual response tag), which is not
    among the sources, next to the builtin exceptions the code can raise.
    [RPCError] stands for any other error of the transport. *)
Inductive Exn : Type :=
| UnexpectedError (msg : string)
| UnexpectedResponse (resp_type : string) (data : json)
| RPCError (msg : string)
| KeyError (key : string)
| TypeError
| AttributeError
| ValueError (msg : string)
| Exception (msg : string)
| DatabaseError (msg : string).

(** [bool(v)] *)
Definition truthy (v : json) : bool :=
  match v with
  | JNull => false
  | JBool b => b
  | JNum n => negb (n =? 0)%Z
  | JStr s => negb (String.eqb s "")
  | JList l => match l with [] => false | _ => true end
  | JObj kvs => match kvs with [] => false | _ => true end
  end.

(** [d[k]] on the key-value pairs of a dict, [None] when the key is absent *)
Fixpoint dict_lookup (kvs : list (string * json)) (k : string) : option json :=
  match kvs with
  | [] => None
  | (k', v) :: rest => if String.eqb k' k then Some v else dict_lookup rest k
  end.

(** [o.get(k, default)]: only a dict has the method *)
Definition py_get (o : json) (k : string) (dflt : json) : Exn + json :=
  match o with
  | JObj kvs => inr (default dflt (dict_lookup kvs k))
  | _ => inl AttributeError
  end.

(** [o[k]] on a dict *)
Definition py_index (o : json) (k : string) : Exn + json :=
  match o with
  | JObj kvs => match dict_lookup kvs k with
                | Some v => inr v
                | None => inl (KeyError k)
                end
  | _ => inl TypeError
  end.

(** [o.get(k)], the default being [None] *)
Definition py_get_none (o : json) (k : string) : Exn + json := py_get o k JNull.

(** [needle in s] for two strings *)
Definition py_substring (needle s : string) : bool :=
  match String.index 0 needle s with Some _ => true | None => false end.

Definition is_JStr (k : string) (v : json) : bool :=
  match v with JStr s => String.eqb s k | _ => false end.

(** [k in o] for a string [k]: membership in a list, key membership in a
    dict, substring test on a string, [TypeError] on anything else. *)
Definition py_contains (k : string) (o : json) : Exn + bool :=
  match o with
  | JList l => inr (existsb (is_JStr k) l)
  | JObj kvs => inr (existsb (fun kv => String.eqb (fst kv) k) kvs)
  | JStr s => inr (py_substring k s)
  | JNull | JBool _ | JNum _ => inl TypeError
  end.

(** The values [for x in o] runs through: the items of a list, the keys of
    a dict, the characters of a string; [TypeError] on anything else. *)
Definition py_iter (o : json) : Exn + list json :=
  match o with
  | JList l => inr l
  | JObj kvs => inr (map (fun kv => JStr (fst kv)) kvs)
  | JStr s => inr (map (fun c => JStr (String c EmptyString)) (String.list_ascii_of_string s))
  | JNull | JBool _ | JNum _ => inl TypeError
  end.

(** [str(v)] of a decoded JSON value, as an f-string interpolates it. *)
Class PyFormat := py_str : json -> string.

(** [sep.join(l)] *)
Definition py_join (sep : string) (l : list string) : string := String.concat sep l.

Definition newline : string := String (Ascii.ascii_of_nat 10) EmptyString.

(** ** The Python [set] of account names

    [SignaldClient._subscriptions] is a [Set[str]].  A Python set iterates
    in the order of its hash table, which the language leaves unspecified
    (for strings it changes with the hash seed of the process), so the
    client is verified against the interface of a set: membership behaves
    as in a set, the iteration order is any order without repetition. *)
Class PySet := {
  pyset : Type;
  pyset_new : pyset;
  pyset_add : string -> pyset -> pyset;
  pyset_discard : string -> pyset -> pyset;
  pyset_list : pyset -> list string;
  pyset_list_NoDup : forall s, NoDup (pyset_list s);
  pyset_list_new : pyset_list pyset_new = [];
  elem_of_pyset_add : forall x s y,
    y ∈ pyset_list (pyset_add x s) <-> y = x \/ y ∈ pyset_list s;
  pyset_add_present : forall x s, x ∈ pyset_list s -> pyset_add x s = s;
  elem_of_pyset_discard : forall x s y,
    y ∈ pyset_list (pyset_discard x s) <-> y <> x /\ y ∈ pyset_list s;
  pyset_discard_absent : forall x s, x ∉ pyset_list s -> pyset_discard x s = s
}.

Section PySetOps.
Context `{PySet}.

(** [x in s] *)
Definition pyset_mem (x : string) (s : pyset) : bool :=
  bool_decide (x ∈ pyset_list s).

(** [bool(s)] *)
Definition pyset_truthy (s : pyset) : bool :=
  match pyset_list s with [] => false | _ => true end.

(** [s.remove(x)] raises [KeyError] when [x] is not in the set *)
Definition pyset_remove (x : string) (s : pyset) : Exn + pyset :=
  if pyset_mem x s then inr (pyset_discard x s) else inl (KeyError x).
End PySetOps.

(** ** The collaborators of the client *)

(** Modelled from the spec: the payload types of [mausignald/types.py],
    which is not among the sources.  Each is a serializable fragment
    ([serialize()]); a [Profile] is built from a response by
    [Profile.deserialize], which can fail on a malformed response. *)
Class SignaldTypes := {
  Address : Type;
  Address_serialize : Address -> json;
  Quote : Type;
  Quote_serialize : Quote -> json;
  Attachment : Type;
  Attachment_serialize : Attachment -> json;
  Mention : Type;
  Mention_serialize : Mention -> json;
  Profile : Type;
  Profile_deserialize : json -> Exn + Profile
}.

(** [GroupID] is a [NewType] of [str]. *)
Definition GroupID : Type := string.

(** [Union[Address, GroupID]] *)
Inductive Recipient `{SignaldTypes} : Type :=
| RAddress (a : Address)
| RGroup (g : GroupID).

(** Modelled from the spec: the members of [WebsocketConnectionState]
    ([mausignald/types.py]) that the data model lists. *)
Inductive WebsocketConnectionState : Type :=
| CONNECTED
| DISCONNECTED
| AUTHENTICATION_FAILED
| SOCKET_DISCONNECTED.

(** The events the registry routes: a parsed [Message] push, and the
    [WebsocketConnectionStateChangeEvent(state, account, exception)] that
    the daemon pushes or the client synthesizes. *)
Inductive Event : Type :=
| MessageEvent (data : json)
| WebsocketConnectionStateChangeEvent
    (state : WebsocketConnectionState) (account : string) (exception : option string).

(** [type(event)], the key of the handler registry *)
Inductive EventClass : Type := MessageClass | WebsocketConnectionStateChangeEventClass.

Definition type_of (evt : Event) : EventClass :=
  match evt with
  | MessageEvent _ => MessageClass
  | WebsocketConnectionStateChangeEvent _ _ _ => WebsocketConnectionStateChangeEventClass
  end.

#[global] Instance EventClass_eq_dec : EqDecision EventClass.
Proof. solve_decision. Defined.

(** A registered handler: a name for the trace of calls, and whether the
    call on an event returns or raises. *)
Record Handler : Type := {
  handler_name : string;
  handler_run : Event -> option Exn
}.

(** The two entry points of the transport: [request(command,
    expected_response, **data)] and [request_v1(command, **data)]. *)
Inductive Expect : Type :=
| Expected (resp_type : string)
| V1.

Record Request : Type := {
  command : string;
  expects : Expect;
  params : list (string * json)
}.

(** The transport contract: the outcome of a request, a response or a
    raised error, given the requests issued before it. *)
Class Transport := transport_reply : list Request -> Request -> Exn + json.

Section Client.
Context `{PySet} `{PyFormat} `{SignaldTypes} `{Transport}.

(** The lines the client logs, with the values they interpolate. *)
Inductive LogEntry : Type :=
| LogNoHandlers (cls : EventClass)
| LogHandlerException (e : Exn)
| LogSubscribeFailed (username : string) (e : Exn)
| LogUnsubscribeFailed (username : string) (e : Exn)
| LogResubscribing
| LogNotifyingDisconnect
| LogProofRequired (options retry_after token message : json)
| LogSendSummary (successful total unregistered : nat) (recipient : Recipient).

(** The client object.  [sent], [dispatched], [handled] and [log] are the
    observable traces: the requests handed to the transport, the events
    handed to [_run_event_handler], the handler calls made, and the log, each
    oldest first. *)
Record Client : Type := mkClient {
  _event_handlers : EventClass -> option (list Handler);
  _subscriptions : pyset;
  sent : list Request;
  dispatched : list Event;
  handled : list (string * Event);
  log : list LogEntry
}.

(** [SignaldClient.__init__] *)
Definition new_client : Client :=
  mkClient (fun _ => None) pyset_new [] [] [] [].

(** *** Coroutines: state and exceptions *)

Definition M (A : Type) : Type := Client -> (Exn + A) * Client.

Definition ret {A} (a : A) : M A := fun c => (inr a, c).

Definition raise {A} (e : Exn) : M A := fun c => (inl e, c).

Definition bind {A B} (m : M A) (k : A -> M B) : M B :=
  fun c => match m c with
           | (inr a, c') => k a c'
           | (inl e, c') => (inl e, c')
           end.

(** A pure operation that may raise *)
Definition lift {A} (r : Exn + A) : M A := fun c => (r, c).

(** [try: m  except ...: h]; the handler [h] tells which exceptions the
    clause catches. *)
Definition try_except {A} (m : M A) (h : Exn -> option (M A)) : M A :=
  fun c => match m c with
           | (inr a, c') => (inr a, c')
           | (inl e, c') => match h e with
                            | Some k => k c'
                            | None => (inl e, c')
                            end
           end.

Definition get_client : M Client := fun c => (inr c, c).

Definition set_subscriptions (s : pyset) : M unit :=
  fun c => (inr tt, mkClient (_event_handlers c) s (sent c) (dispatched c) (handled c) (log c)).

Definition write_log (l : LogEntry) : M unit :=
  fun c => (inr tt, mkClient (_event_handlers c) (_subscriptions c) (sent c)
                             (dispatched c) (handled c) (log c ++ [l])).

Definition note_dispatched (evt : Event) : M unit :=
  fun c => (inr tt, mkClient (_event_handlers c) (_subscriptions c) (sent c)
                             (dispatched c ++ [evt]) (handled c) (log c)).

(** [await handler(event)] *)
Definition call_handler (h : Handler) (evt : Event) : M unit :=
  fun c => (match handler_run h evt with Some e => inl e | None => inr tt end,
            mkClient (_event_handlers c) (_subscriptions c) (sent c)
                     (dispatched c) (handled c ++ [(handler_name h, evt)]) (log c)).

(** [await self.request(command, expected_response, **data)] and
    [await self.request_v1(command, **data)] *)
Definition do_request (r : Request) : M json :=
  fun c => (transport_reply (sent c) r,
            mkClient (_event_handlers c) (_subscriptions c) (sent c ++ [r])
                     (dispatched c) (handled c) (log c)).

Definition request (cmd expected : string) (data : list (string * json)) : M json :=
  do_request {| command := cmd; expects := Expected expected; params := data |}.

Definition request_v1 (cmd : string) (data : list (string * json)) : M json :=
  do_request {| command := cmd; expects := V1; params := data |}.

End Client.

Arguments Client {_ _}.
Arguments M {_ _} A.
Arguments LogEntry {_}.

Declare Scope py_scope.
Delimit Scope py_scope with py.
Notation "x <- m ;; k" := (bind m (fun x => k))
  (at level 100, m at next level, right associativity) : py_scope.
Notation "m ;; k" := (bind m (fun _ => k))
  (at level 100, right associativity) : py_scope.

Local Open Scope py_scope.

Section Operations.
Context `{PySet} `{PyFormat} `{SignaldTypes} `{Transport}.

(** [for x in l: body x] *)
Fixpoint for_each {A} (l : list A) (body : A -> M unit) : M unit :=
  match l with
  | [] => ret tt
  | x :: rest => body x ;; for_each rest body
  end.

(** *** The event registry *)

(** [add_event_handler]: [setdefault(event_class, []).append(handler)] *)
Definition add_event_handler (cls : EventClass) (h : Handler) : M unit :=
  fun c => (inr tt,
            mkClient (fun k => if decide (k = cls)
                               then Some (default [] (_event_handlers c cls) ++ [h])
                               else _event_handlers c k)
                     (_subscriptions c) (sent c) (dispatched c) (handled c) (log c)).

(** The loop of [_run_event_handler]: every handler is awaited in turn, an
    exception of one is logged and the loop goes on. *)
Definition run_handlers (handlers : list Handler) (evt : Event) : M unit :=
  for_each handlers (fun handler =>
    try_except (call_handler handler evt)
               (fun e => Some (write_log (LogHandlerException e)))).

Definition _run_event_handler (evt : Event) : M unit :=
  note_dispatched evt ;;
  c <- get_client ;;
  match _event_handlers c (type_of evt) with
  | None => write_log (LogNoHandlers (type_of evt))
  | Some handlers => run_handlers handlers evt
  end.

(** *** Subscriptions *)

Definition authorization_failed : string := "[401] Authorization failed!".

Definition subscribe (username : string) : M bool :=
  try_except
    (request "subscribe" "subscribed" [("username", JStr username)] ;;
     c <- get_client ;;
     set_subscriptions (pyset_add username (_subscriptions c)) ;;
     ret true)
    (fun e =>
       match e with
       | UnexpectedError msg => Some (
           write_log (LogSubscribeFailed username e) ;;
           let evt := WebsocketConnectionStateChangeEvent
                        (if String.eqb msg authorization_failed
                         then AUTHENTICATION_FAILED
                         else DISCONNECTED)
                        username None in
           _run_event_handler evt ;;
           ret false)
       | _ => None
       end).

Definition unsubscribe (username : string) : M bool :=
  try_except
    (request "unsubscribe" "unsubscribed" [("username", JStr username)] ;;
     c <- get_client ;;
     s <- lift (pyset_remove username (_subscriptions c)) ;;
     set_subscriptions s ;;
     ret true)
    (fun e =>
       match e with
       | UnexpectedError msg => Some (
           write_log (LogUnsubscribeFailed username e) ;;
           ret false)
       | _ => None
       end).

(** The handler of the transport's CONNECT signal.  The loop runs over
    [list(self._subscriptions)], a copy made before the first iteration. *)
Definition _resubscribe : M unit :=
  c <- get_client ;;
  if pyset_truthy (_subscriptions c) then
    write_log LogResubscribing ;;
    for_each (pyset_list (_subscriptions c)) (fun username =>
      subscribe username ;; ret tt)
  else ret tt.

Definition disconnect_cause : string := "Disconnected from signald".

(** The handler of the transport's DISCONNECT signal.  The loop runs over
    the set itself; nothing it awaits changes the set. *)
Definition _on_disconnect : M unit :=
  c <- get_client ;;
  if pyset_truthy (_subscriptions c) then
    write_log LogNotifyingDisconnect ;;
    for_each (pyset_list (_subscriptions c)) (fun username =>
      let evt := WebsocketConnectionStateChangeEvent
                   SOCKET_DISCONNECTED username (Some disconnect_cause) in
      _run_event_handler evt)
  else ret tt.

(** *** The send pipeline *)

Definition _recipient_to_args (recipient : Recipient) (simple_name : bool)
  : list (string * json) :=
  match recipient with
  | RAddress a => [(if simple_name then "address" else "recipientAddress", Address_serialize a)]
  | RGroup g => [(if simple_name then "group" else "recipientGroupId", JStr g)]
  end.

(** The local variables of the loop of [send] *)
Record SendAcc : Type := mkAcc {
  errors : list string;
  unregistered_failures : list string;
  successful_send_count : nat
}.

Definition network_failure_line (number : json) : string :=
  "Network failure occurred while sending message to " +:+ py_str number +:+ ".".

Definition unregistered_failure_line (number : json) : string :=
  "Unregistered failure occurred while sending message to " +:+ py_str number +:+ ".".

Definition identity_failure_line (number identity : json) : string :=
  "Identity failure occurred while sending message to " +:+ py_str number
  +:+ ". New identity: " +:+ py_str identity.

Definition proof_required_line (number message : json) : string :=
  "Proof required failure occurred while sending message to " +:+ py_str number
  +:+ ". Message: " +:+ py_str message.

Definition recaptcha_line : string := "RECAPTCHA required.".

(** The first two lines of the loop: [address = result.get("addres", {})]
    and [number = address.get("number") or address.get("uuid")]. *)
Definition result_number (result : json) : Exn + json :=
  match py_get result "addres" (JObj []) with
  | inl e => inl e
  | inr address =>
      match py_get_none address "number" with
      | inl e => inl e
      | inr number_field =>
          if truthy number_field then inr number_field
          else py_get_none address "uuid"
      end
  end.

(** The branch of the loop for a proof-required failure *)
Definition on_proof_required (acc : SendAcc) (number proof_required_failure : json)
  : M SendAcc :=
  options <- lift (py_get_none proof_required_failure "options") ;;
  retry_after <- lift (py_get_none proof_required_failure "retry_after") ;;
  token <- lift (py_get_none proof_required_failure "token") ;;
  message <- lift (py_get_none proof_required_failure "message") ;;
  write_log (LogProofRequired options retry_after token message) ;;
  let acc1 := mkAcc (errors acc ++ [proof_required_line number message])
                    (unregistered_failures acc) (successful_send_count acc) in
  recaptcha <- lift (py_contains "RECAPTCHA" options) ;;
  if recaptcha : bool then
    ret (mkAcc (errors acc1 ++ [recaptcha_line])
               (unregistered_failures acc1) (successful_send_count acc1))
  else
    push_challenge <- lift (py_contains "PUSH_CHALLENGE" options) ;;
    if push_challenge : bool then
      request_v1 "submit_challenge" [] ;;
      ret acc1
    else ret acc1.

(** One iteration of the loop of [send] *)
Definition classify_result (acc : SendAcc) (result : json) : M SendAcc :=
  number <- lift (result_number result) ;;
  proof_required_failure <- lift (py_get_none result "proof_required_failure") ;;
  network_failure <- lift (py_get result "networkFailure" (JBool false)) ;;
  if truthy network_failure then
    ret (mkAcc (errors acc ++ [network_failure_line number])
               (unregistered_failures acc) (successful_send_count acc))
  else
    unregistered_failure <- lift (py_get result "unregisteredFailure" (JBool false)) ;;
    if truthy unregistered_failure then
      ret (mkAcc (errors acc)
                 (unregistered_failures acc ++ [unregistered_failure_line number])
                 (successful_send_count acc))
    else
      identity_failure <- lift (py_get result "identityFailure" (JStr "")) ;;
      if truthy identity_failure then
        new_identity <- lift (py_index result "identityFailure") ;;
        ret (mkAcc (errors acc ++ [identity_failure_line number new_identity])
                   (unregistered_failures acc) (successful_send_count acc))
      else if truthy proof_required_failure then
        on_proof_required acc number proof_required_failure
      else
        ret (mkAcc (errors acc) (unregistered_failures acc)
                   (S (successful_send_count acc))).

Fixpoint classify_results (acc : SendAcc) (results : list json) : M SendAcc :=
  match results with
  | [] => ret acc
  | result :: rest => acc' <- classify_result acc result ;; classify_results acc' rest
  end.

(** The errors [send] reports once the loop is over *)
Definition final_errors (acc : SendAcc) (total : nat) : list string :=
  if Nat.eqb (length (unregistered_failures acc)) total
  then errors acc ++ unregistered_failures acc
  else errors acc.

(** What follows [resp = await self.request_v1("send", ...)] *)
Definition send_classify (recipient : Recipient) (resp : json) : M unit :=
  results <- lift (py_get resp "results" (JList [])) ;;
  items <- lift (py_iter results) ;;
  acc <- classify_results (mkAcc [] [] 0) items ;;
  write_log (LogSendSummary (successful_send_count acc) (length items)
                            (length (unregistered_failures acc)) recipient) ;;
  match final_errors acc (length items) with
  | [] => ret tt
  | errs => raise (Exception (py_join newline errs))
  end.

Definition opt_json {A} (f : A -> json) (o : option A) : json :=
  match o with Some a => f a | None => JNull end.

Definition send (username : string) (recipient : Recipient) (body : string)
    (quote : option Quote) (attachments : option (list Attachment))
    (mentions : option (list Mention)) (timestamp : option Z) : M unit :=
  let serialized_quote := opt_json Quote_serialize quote in
  let serialized_attachments := map Attachment_serialize (default [] attachments) in
  let serialized_mentions := map Mention_serialize (default [] mentions) in
  resp <- request_v1 "send"
            ([("username", JStr username);
              ("messageBody", JStr body);
              ("attachments", JList serialized_attachments);
              ("quote", serialized_quote);
              ("mentions", JList serialized_mentions);
              ("timestamp", opt_json JNum timestamp)]
             ++ _recipient_to_args recipient false) ;;
  send_classify recipient resp.

(** *** Profiles and trust *)

Definition get_profile (username : string) (address : Address) (use_cache : bool)
  : M (option Profile) :=
  fetched <- try_except
    (resp <- request_v1 "get_profile"
               [("account", JStr username);
                ("address", Address_serialize address);
                ("async", JBool use_cache)] ;;
     ret (Some resp))
    (fun e =>
       match e with
       | UnexpectedResponse resp_type _ =>
           Some (if String.eqb resp_type "profile_not_available"
                 then ret None
                 else raise e)
       | _ => None
       end) ;;
  match fetched with
  | None => ret None
  | Some resp => profile <- lift (Profile_deserialize resp) ;; ret (Some profile)
  end.

(** [bool(s)] of an [Optional[str]] *)
Definition str_truthy (s : option string) : bool := truthy (opt_json JStr s).

Definition trust (username : string) (recipient : Address) (trust_level : string)
    (safety_number qr_code_data : option string) : M unit :=
  args <- (if str_truthy safety_number then
             if str_truthy qr_code_data then
               raise (ValueError "only one of safety_number and qr_code_data must be set")
             else ret [("safety_number", opt_json JStr safety_number)]
           else if str_truthy qr_code_data then
             ret [("qr_code_data", opt_json JStr qr_code_data)]
           else raise (ValueError "safety_number or qr_code_data is required")) ;;
  request_v1 "trust"
    ([("account", JStr username)] ++ args
     ++ [("trust_level", JStr trust_level); ("address", Address_serialize recipient)]) ;;
  ret tt.

End Operations.

(** ** The rest of the command layer *)

(** Modelled from the spec: the response types of [mausignald/types.py],
    which is not among the sources.  Each is built from a response by its
    [deserialize], which can fail on a malformed response; a [Reaction] is a
    serializable fragment.  A deserialized [Message] is kept as decoded
    data, the payload of [MessageEvent]; a deserialized
    [WebsocketConnectionStateChangeEvent] is its three fields. *)
Class SignaldResponses := {
  Account : Type;
  Account_deserialize : json -> Exn + Account;
  LinkSession : Type;
  LinkSession_deserialize : json -> Exn + LinkSession;
  DeviceInfo : Type;
  DeviceInfo_deserialize : json -> Exn + DeviceInfo;
  Group : Type;
  Group_deserialize : json -> Exn + Group;
  GroupV2 : Type;
  GroupV2_deserialize : json -> Exn + GroupV2;
  GetIdentitiesResponse : Type;
  GetIdentitiesResponse_deserialize : json -> Exn + GetIdentitiesResponse;
  Reaction : Type;
  Reaction_serialize : Reaction -> json;
  Message_deserialize : json -> Exn + json;
  StateChange_deserialize : json -> Exn + WebsocketConnectionState * string * option string
}.

(** [[f(x) for x in items]]: the first call that raises ends the
    comprehension. *)
Fixpoint deserialize_all {T} (f : json -> Exn + T) (items : list json) : Exn + list T :=
  match items with
  | [] => inr []
  | x :: rest =>
      match f x with
      | inl e => inl e
      | inr v => match deserialize_all f rest with
                 | inl e => inl e
                 | inr vs => inr (v :: vs)
                 end
      end
  end.

(** [l.remove(h)] on a list of handlers: the list without the first
    occurrence of [h], [None] when there is none.  Two handlers are the same
    callable when they bear the same name. *)
Fixpoint remove_handler (h : Handler) (l : list Handler) : option (list Handler) :=
  match l with
  | [] => None
  | h' :: rest =>
      if String.eqb (handler_name h') (handler_name h) then Some rest
      else option_map (cons h') (remove_handler h rest)
  end.

Section CommandLayer.
Context `{PySet} `{PyFormat} `{SignaldTypes} `{SignaldResponses} `{Transport}.

(** [remove_event_handler]: [setdefault(event_class, []).remove(handler)];
    the [setdefault] has registered the class by the time [remove] raises. *)
Definition remove_event_handler (cls : EventClass) (h : Handler) : M unit :=
  fun c =>
    let handlers := default [] (_event_handlers c cls) in
    let registered l :=
      mkClient (fun k => if decide (k = cls) then Some l else _event_handlers c k)
               (_subscriptions c) (sent c) (dispatched c) (handled c) (log c) in
    match remove_handler h handlers with
    | Some l => (inr tt, registered l)
    | None => (inl (ValueError "list.remove(x): x not in list"), registered handlers)
    end.

(** The lookup [{"message": Message}[event_type]]: a list or a dict is not
    hashable, any other key than ["message"] is missing (a key that is not a
    string is named as [str] prints it). *)
Definition event_class_of (event_type : json) : Exn + unit :=
  match event_type with
  | JStr s => if String.eqb s "message" then inr tt else inl (KeyError s)
  | JList _ | JObj _ => inl TypeError
  | JNull | JBool _ | JNum _ => inl (KeyError (py_str event_type))
  end.

Definition _parse_message (data : json) : M unit :=
  event_type <- lift (py_index data "type") ;;
  event_data <- lift (py_index data "data") ;;
  lift (event_class_of event_type) ;;
  event <- lift (Message_deserialize event_data) ;;
  _run_event_handler (MessageEvent event).

Definition _websocket_connection_state_change (change_event : json) : M unit :=
  data <- lift (py_index change_event "data") ;;
  fields <- lift (StateChange_deserialize data) ;;
  _run_event_handler
    (WebsocketConnectionStateChangeEvent (fst (fst fields)) (snd (fst fields)) (snd fields)).

Definition register (phone : string) (voice : bool) (captcha : option string) : M json :=
  resp <- request_v1 "register"
            [("account", JStr phone); ("voice", JBool voice);
             ("captcha", opt_json JStr captcha)] ;;
  lift (py_index resp "account_id").

Definition verify (username code : string) : M Account :=
  resp <- request_v1 "verify" [("account", JStr username); ("code", JStr code)] ;;
  lift (Account_deserialize resp).

Definition start_link : M LinkSession :=
  resp <- request_v1 "generate_linking_uri" [] ;;
  lift (LinkSession_deserialize resp).

Definition finish_link (session_id device_name : string) (overwrite : bool) : M Account :=
  resp <- request_v1 "finish_link"
            [("device_name", JStr device_name); ("session_id", JStr session_id);
             ("overwrite", JBool overwrite)] ;;
  lift (Account_deserialize resp).

Definition react (username : string) (recipient : Recipient) (reaction : Reaction)
  : M unit :=
  request_v1 "react"
    ([("username", JStr username); ("reaction", Reaction_serialize reaction)]
     ++ _recipient_to_args recipient false) ;;
  ret tt.

Definition remote_delete (username : string) (recipient : Recipient) (timestamp : Z)
  : M unit :=
  request_v1 "remote_delete"
    ([("account", JStr username); ("timestamp", JNum timestamp)]
     ++ _recipient_to_args recipient true) ;;
  ret tt.

Definition send_receipt (username : string) (sender : Address) (timestamps : list Z)
    (when : option Z) (read : bool) : M unit :=
  if negb read then ret tt
  else
    request_v1 "mark_read"
      [("account", JStr username); ("timestamps", JList (map JNum timestamps));
       ("when", opt_json JNum when); ("to", Address_serialize sender)] ;;
    ret tt.

Definition list_accounts : M (list Account) :=
  resp <- request_v1 "list_accounts" [] ;;
  accounts <- lift (py_get resp "accounts" (JList [])) ;;
  items <- lift (py_iter accounts) ;;
  lift (deserialize_all Account_deserialize items).

Definition delete_account (username : string) (server : bool) : M unit :=
  request_v1 "delete_account" [("account", JStr username); ("server", JBool server)] ;;
  ret tt.

Definition get_linked_devices (username : string) : M (list DeviceInfo) :=
  resp <- request_v1 "get_linked_devices" [("account", JStr username)] ;;
  devices <- lift (py_get resp "devices" (JList [])) ;;
  items <- lift (py_iter devices) ;;
  lift (deserialize_all DeviceInfo_deserialize items).

Definition remove_linked_device (username : string) (device_id : Z) : M unit :=
  request_v1 "remove_linked_device"
    [("account", JStr username); ("deviceId", JNum device_id)] ;;
  ret tt.

Definition list_contacts (username : string) : M (list Profile) :=
  resp <- request_v1 "list_contacts" [("account", JStr username)] ;;
  profiles <- lift (py_index resp "profiles") ;;
  items <- lift (py_iter profiles) ;;
  lift (deserialize_all Profile_deserialize items).

Definition list_groups (username : string) : M (list (Group + GroupV2)) :=
  resp <- request_v1 "list_groups" [("account", JStr username)] ;;
  legacy_groups <- lift (py_get resp "legacyGroups" (JList [])) ;;
  legacy_items <- lift (py_iter legacy_groups) ;;
  legacy <- lift (deserialize_all Group_deserialize legacy_items) ;;
  groups <- lift (py_get resp "groups" (JList [])) ;;
  v2_items <- lift (py_iter groups) ;;
  v2 <- lift (deserialize_all GroupV2_deserialize v2_items) ;;
  ret (map inl legacy ++ map inr v2).

(** [[addr.serialize() for addr in members] if members else None] *)
Definition members_param (members : option (list Address)) : option json :=
  match members with
  | Some (a :: rest) => Some (JList (map Address_serialize (a :: rest)))
  | Some [] | None => None
  end.

(** The dict comprehension of [update_group]: the entries whose value is
    not [None], in the order of the literal. *)
Definition update_params (group_id : GroupID) (title avatar_path : option string)
    (add_members remove_members : option (list Address)) : list (string * json) :=
  omap (fun entry => match snd entry with
                     | Some value => Some (fst entry, value)
                     | None => None
                     end)
       [("groupID", Some (JStr group_id));
        ("avatar", option_map JStr avatar_path);
        ("title", option_map JStr title);
        ("addMembers", members_param add_members);
        ("removeMembers", members_param remove_members)].

Definition update_group (username : string) (group_id : GroupID)
    (title avatar_path : option string)
    (add_members remove_members : option (list Address))
  : M (option (Group + GroupV2)) :=
  resp <- request_v1 "update_group"
            ([("account", JStr username)]
             ++ update_params group_id title avatar_path add_members remove_members) ;;
  has_v1 <- lift (py_contains "v1" resp) ;;
  if has_v1 : bool then
    v1 <- lift (py_index resp "v1") ;;
    group <- lift (Group_deserialize v1) ;;
    ret (Some (inl group))
  else
    has_v2 <- lift (py_contains "v2" resp) ;;
    if has_v2 : bool then
      v2 <- lift (py_index resp "v2") ;;
      group <- lift (GroupV2_deserialize v2) ;;
      ret (Some (inr group))
    else ret None.

Definition accept_invitation (username : string) (group_id : GroupID) : M GroupV2 :=
  resp <- request_v1 "accept_invitation"
            [("account", JStr username); ("groupID", JStr group_id)] ;;
  lift (GroupV2_deserialize resp).

Definition get_group (username : string) (group_id : GroupID) (revision : Z)
  : M (option GroupV2) :=
  resp <- request_v1 "get_group"
            [("account", JStr username); ("groupID", JStr group_id);
             ("revision", JNum revision)] ;;
  has_id <- lift (py_contains "id" resp) ;;
  if has_id : bool then
    group <- lift (GroupV2_deserialize resp) ;;
    ret (Some group)
  else ret None.

Definition get_identities (username : string) (address : Address)
  : M GetIdentitiesResponse :=
  resp <- request_v1 "get_identities"
            [("account", JStr username); ("address", Address_serialize address)] ;;
  lift (GetIdentitiesResponse_deserialize resp).

Definition set_profile (username : string) (name avatar_path : option string) : M unit :=
  let args := match name with Some n => [("name", JStr n)] | None => [] end
              ++ match avatar_path with Some a => [("avatarFile", JStr a)] | None => [] end in
  request_v1 "set_profile" ([("account", JStr username)] ++ args) ;;
  ret tt.

End CommandLayer.

(** ** The disappearing-message repository *)

Module DisappearingMessage.

(** A row of the table [disappearing_message], with the four columns the
    queries select. *)
Record Row : Type := {
  row_room_id : string;
  row_mxid : string;
  row_expiration_seconds : Z;
  row_expiration_ts : option Z
}.

(** The database behind [cls.db]: it serves the rows of the table, or the
    read fails with an error. *)
Inductive Database : Type :=
| Serving (table : list Row)
| Failing (e : Exn).

Definition key_matches (room_id event_id : string) (r : Row) : bool :=
  String.eqb (row_room_id r) room_id && String.eqb (row_mxid r) event_id.

(** [await cls.db.fetchrow(q, room_id, event_id)] for the query of [get]
    ([WHERE room_id = $1 AND mxid = $2]): the first row of the result, or
    [None] when the result is empty. *)
Definition fetchrow (db : Database) (room_id event_id : string) : Exn + option Row :=
  match db with
  | Serving table => inr (find (key_matches room_id event_id) table)
  | Failing e => inl e
  end.

Record t : Type := {
  room_id : string;
  mxid : string;
  expiration_seconds : Z;
  expiration_ts : option Z
}.

(** [_from_row]: the class called with the row unpacked into keyword
    arguments; unpacking [None] raises [TypeError]. *)
Definition _from_row (row : option Row) : Exn + t :=
  match row with
  | Some r => inr {| room_id := row_room_id r;
                     mxid := row_mxid r;
                     expiration_seconds := row_expiration_seconds r;
                     expiration_ts := row_expiration_ts r |}
  | None => inl TypeError
  end.

(** The body of the [try] of [get] *)
Definition get_body (db : Database) (room_id event_id : string) : Exn + t :=
  match fetchrow db room_id event_id with
  | inr row => _from_row row
  | inl e => inl e
  end.

(** [get]: [except Exception: return None] *)
Definition get (db : Database) (room_id event_id : string) : Exn + option t :=
  match get_body db room_id event_id with
  | inr message => inr (Some message)
  | inl _ => inr None
  end.

(** The row that stores a message *)
Definition to_row (message : t) : Row :=
  {| row_room_id := room_id message;
     row_mxid := mxid message;
     row_expiration_seconds := expiration_seconds message;
     row_expiration_ts := expiration_ts message |}.

(** Modelled from the spec: the table is declared outside the sources.  Its
    two expiration columns hold 64-bit integers, where a Python [int] has no
    bound. *)
Definition int64 (z : Z) : bool := ((- 2 ^ 63 <=? z) && (z <? 2 ^ 63))%Z.

(** Modelled from the spec: the two identifier columns hold text, which has
    no NUL character, where a Python [str] may have one. *)
Definition text (s : string) : bool :=
  forallb (fun a => negb (Ascii.eqb a Ascii.zero)) (String.list_ascii_of_string s).

(** The four query arguments that [insert] and [update] pass fit their
    columns.  When one does not, [execute] raises and nothing is written. *)
Definition storable (message : t) : bool :=
  text (room_id message) && text (mxid message) &&
  int64 (expiration_seconds message) &&
  match expiration_ts message with
  | Some ts => int64 ts
  | None => true
  end.

(** Modelled from the spec: the table is keyed by the room and event
    identifiers (its declaration is not among the sources), so the [INSERT]
    of [insert] is refused when a row has the key already.  It is refused
    as well, and stores nothing, when an argument does not fit its column. *)
Definition execute_insert (db : Database) (message : t) : Exn + Database :=
  match db with
  | Serving table =>
      if storable message then
        match find (key_matches (room_id message) (mxid message)) table with
        | Some _ => inl (DatabaseError "duplicate key")
        | None => inr (Serving (table ++ [to_row message]))
        end
      else inl (DatabaseError "value out of range")
  | Failing e => inl e
  end.

(** [insert]: the error of [execute], if any, reaches the caller. *)
Definition insert (db : Database) (message : t) : (Exn + unit) * Database :=
  match execute_insert db message with
  | inr db' => (inr tt, db')
  | inl e => (inl e, db)
  end.

(** The [UPDATE] of [update]: the two expiration columns of every row
    [WHERE room_id=$1 AND mxid=$2].  An argument that does not fit its
    column makes [execute] raise, and no row is changed. *)
Definition execute_update (db : Database) (message : t) : Exn + Database :=
  match db with
  | Serving table =>
      if storable message then
        inr (Serving (map (fun r =>
                             if key_matches (room_id message) (mxid message) r
                             then {| row_room_id := row_room_id r;
                                     row_mxid := row_mxid r;
                                     row_expiration_seconds := expiration_seconds message;
                                     row_expiration_ts := expiration_ts message |}
                             else r) table))
      else inl (DatabaseError "value out of range")
  | Failing e => inl e
  end.

(** [update]: [except Exception as e: print(e)].  The third component is
    what the call prints. *)
Definition update (db : Database) (message : t) : (Exn + unit) * Database * list Exn :=
  match execute_update db message with
  | inr db' => (inr tt, db', [])
  | inl e => (inr tt, db, [e])
  end.


(** [await cls.db.fetch(q)] for the query of [get_all] *)
Definition fetch_all (db : Database) : Exn + list Row :=
  match db with
  | Serving table => inr table
  | Failing e => inl e
  end.


(** [[cls._from_row(r) for r in rows]] *)
Fixpoint from_rows (rows : list Row) : Exn + list t :=
  match rows with
  | [] => inr []
  | r :: rest =>
      match _from_row (Some r) with
      | inl e => inl e
      | inr message => match from_rows rest with
                       | inl e => inl e
                       | inr messages => inr (message :: messages)
                       end
      end
  end.

Definition get_all (db : Database) : Exn + list t :=
  match fetch_all db with
  | inr rows => from_rows rows
  | inl e => inl e
  end.


(** The message a row holds *)
Definition of_row (r : Row) : t :=
  {| room_id := row_room_id r; mxid := row_mxid r;
     expiration_seconds := row_expiration_seconds r;
     expiration_ts := row_expiration_ts r |}.

(** A row with the key is stored *)
Definition stored (table : list Row) (room event : string) : Prop :=
  exists r, r ∈ table /\ row_room_id r = room /\ row_mxid r = event.

End DisappearingMessage.

(** ** Vocabulary of the properties

    The requests and events the operations produce, the traces they leave,
    and the tests of the code read as predicates. *)

Definition subscribe_request (username : string) : Request :=
  {| command := "subscribe"; expects := Expected "subscribed";
     params := [("username", JStr username)] |}.

Definition unsubscribe_request (username : string) : Request :=
  {| command := "unsubscribe"; expects := Expected "unsubscribed";
     params := [("username", JStr username)] |}.

Definition submit_challenge_request : Request :=
  {| command := "submit_challenge"; expects := V1; params := [] |}.

Definition get_profile_request `{SignaldTypes}
    (username : string) (address : Address) (use_cache : bool) : Request :=
  {| command := "get_profile"; expects := V1;
     params := [("account", JStr username);
                ("address", Address_serialize address);
                ("async", JBool use_cache)] |}.

(** The [trust] request carrying one argument [arg] under the name [key] *)
Definition trust_request `{SignaldTypes}
    (username : string) (recipient : Address) (trust_level key arg : string) : Request :=
  {| command := "trust"; expects := V1;
     params := [("account", JStr username); (key, JStr arg);
                ("trust_level", JStr trust_level);
                ("address", Address_serialize recipient)] |}.

(** The event [subscribe] synthesizes on a failure with message [msg] *)
Definition subscribe_failure_event (username msg : string) : Event :=
  WebsocketConnectionStateChangeEvent
    (if String.eqb msg authorization_failed then AUTHENTICATION_FAILED else DISCONNECTED)
    username None.

(** The event [_on_disconnect] synthesizes for an account *)
Definition socket_disconnected_event (username : string) : Event :=
  WebsocketConnectionStateChangeEvent SOCKET_DISCONNECTED username (Some disconnect_cause).

(** The handlers registered for the class of an event *)
Definition handlers_for `{PySet} `{SignaldTypes} (c : Client) (evt : Event) : list Handler :=
  default [] (_event_handlers c (type_of evt)).

Section Vocabulary.
Context `{PySet} `{PyFormat} `{SignaldTypes} `{Transport}.

Definition handler_calls (hs : list Handler) (evt : Event) : list (string * Event) :=
  map (fun h => (handler_name h, evt)) hs.

Definition handler_failures (hs : list Handler) (evt : Event) : list LogEntry :=
  omap (fun h => LogHandlerException <$> handler_run h evt) hs.

(** What [_run_event_handler] logs for an event *)
Definition dispatch_log (c : Client) (evt : Event) : list LogEntry :=
  match _event_handlers c (type_of evt) with
  | None => [LogNoHandlers (type_of evt)]
  | Some handlers => handler_failures handlers evt
  end.

(** The client after one more request has gone out *)
Definition after_request (r : Request) (c : Client) : Client :=
  mkClient (_event_handlers c) (_subscriptions c) (sent c ++ [r])
           (dispatched c) (handled c) (log c).

(** [e] is an [UnexpectedError], the class [subscribe] and [unsubscribe] catch *)
Definition classified (e : Exn) : bool :=
  match e with UnexpectedError _ => true | _ => false end.

(** The loop of [_resubscribe] *)
Definition resubscribe_loop (usernames : list string) : M unit :=
  for_each usernames (fun username => subscribe username ;; ret tt).

(** The loop of [_on_disconnect] *)
Definition disconnect_loop (usernames : list string) : M unit :=
  for_each usernames (fun username =>
    _run_event_handler (socket_disconnected_event username)).

(** The argument of [trust] is supplied: it is a string and not empty *)
Definition supplied (arg : option string) : Prop :=
  exists s, arg = Some s /\ s <> "".

Definition send_request (username : string) (recipient : Recipient) (body : string)
    (quote : option Quote) (attachments : option (list Attachment))
    (mentions : option (list Mention)) (timestamp : option Z) : Request :=
  {| command := "send"; expects := V1;
     params := [("username", JStr username);
                ("messageBody", JStr body);
                ("attachments", JList (map Attachment_serialize (default [] attachments)));
                ("quote", opt_json Quote_serialize quote);
                ("mentions", JList (map Mention_serialize (default [] mentions)));
                ("timestamp", opt_json JNum timestamp)]
               ++ _recipient_to_args recipient false |}.

(** The tests of the loop of [send], read off a result: which branch the
    result takes when none of its lookups raises. *)
Inductive Branch : Type :=
| NetworkFailure
| UnregisteredFailure
| IdentityFailure
| ProofRequiredFailure
| Delivered.

Definition branch_of_fields (kvs : list (string * json)) : Branch :=
  if truthy (default (JBool false) (dict_lookup kvs "networkFailure")) then NetworkFailure
  else if truthy (default (JBool false) (dict_lookup kvs "unregisteredFailure"))
       then UnregisteredFailure
  else if truthy (default (JStr "") (dict_lookup kvs "identityFailure")) then IdentityFailure
  else if truthy (default JNull (dict_lookup kvs "proof_required_failure"))
       then ProofRequiredFailure
  else Delivered.

(** The branch a result takes, when it is a dict whose ["addres"] entry, if
    any, is a dict too (the loop raises [AttributeError] otherwise). *)
Definition branch_of (result : json) : option Branch :=
  match result, result_number result with
  | JObj kvs, inr _ => Some (branch_of_fields kvs)
  | _, _ => None
  end.

Definition reports_unregistered (result : json) : bool :=
  match branch_of result with Some UnregisteredFailure => true | _ => false end.

Definition reports_delivery (result : json) : bool :=
  match branch_of result with Some Delivered => true | _ => false end.

Definition reports_proof_required (result : json) : bool :=
  match branch_of result with Some ProofRequiredFailure => true | _ => false end.

(** The unregistered-failure lines of the results that report one *)
Definition unregistered_lines (items : list json) : list string :=
  flat_map (fun result =>
              match result_number result with
              | inr number => if reports_unregistered result
                              then [unregistered_failure_line number] else []
              | inl _ => []
              end) items.

Definition deliveries (items : list json) : nat :=
  length (filter (fun result => reports_delivery result = true) items).

(** The client after the summary line of [send] is logged *)
Definition with_summary (recipient : Recipient) (acc : SendAcc) (total : nat)
    (c : Client) : Client :=
  mkClient (_event_handlers c) (_subscriptions c) (sent c) (dispatched c) (handled c)
           (log c ++ [LogSendSummary (successful_send_count acc) total
                                     (length (unregistered_failures acc)) recipient]).

(** The client after the warning of the proof-required branch is logged *)
Definition with_proof_warning (fields : list (string * json)) (c : Client) : Client :=
  mkClient (_event_handlers c) (_subscriptions c) (sent c) (dispatched c) (handled c)
           (log c ++ [LogProofRequired (default JNull (dict_lookup fields "options"))
                                       (default JNull (dict_lookup fields "retry_after"))
                                       (default JNull (dict_lookup fields "token"))
                                       (default JNull (dict_lookup fields "message"))]).

(** The results that take the proof-required branch *)
Definition proof_required_count (items : list json) : nat :=
  length (filter (fun result => reports_proof_required result = true) items).

(** What one iteration leaves alone, and the request it may add *)
Definition challenges_only (k : nat) (c c' : Client) : Prop :=
  _event_handlers c' = _event_handlers c /\
  _subscriptions c' = _subscriptions c /\
  dispatched c' = dispatched c /\
  handled c' = handled c /\
  sent c' = sent c ++ replicate k submit_challenge_request.

End Vocabulary.

(** ** Environments *)

(** Two sets within the interface [PySet], both over a list of names:
    [back] iterates in the order of insertion, [front] iterates the newest
    name first.  With two names stored, each of the two is an order that a
    process shows for some hash seed. *)
Module SetOrders.

Definition add_back (x : string) (l : list string) : list string :=
  if bool_decide (x ∈ l) then l else l ++ [x].

Definition add_front (x : string) (l : list string) : list string :=
  if bool_decide (x ∈ l) then l else x :: l.

Definition discard (x : string) (l : list string) : list string :=
  filter (fun y => y <> x) l.

#[refine] Definition back : PySet := {|
  pyset := list string;
  pyset_new := [];
  pyset_add := add_back;
  pyset_discard := discard;
  pyset_list := remove_dups |}.
Proof.
  - intros s. apply NoDup_remove_dups.
  - reflexivity.
  - intros x s y. rewrite !elem_of_remove_dups. unfold add_back.
    case_bool_decide as Hx.
    + split; [tauto|]. intros [->|?]; done.
    + rewrite elem_of_app, list_elem_of_singleton. tauto.
  - intros x s. rewrite elem_of_remove_dups. unfold add_back. intros Hx.
    by rewrite bool_decide_eq_true_2.
  - intros x s y. rewrite !elem_of_remove_dups. unfold discard.
    rewrite list_elem_of_filter. tauto.
  - intros x s. rewrite elem_of_remove_dups. unfold discard. intros Hx.
    induction s as [|a s IH]; [done|].
    rewrite filter_cons. apply not_elem_of_cons in Hx as [Hne Hx].
    rewrite decide_True by congruence. by rewrite IH.
Defined.

#[refine] Definition front : PySet := {|
  pyset := list string;
  pyset_new := [];
  pyset_add := add_front;
  pyset_discard := discard;
  pyset_list := remove_dups |}.
Proof.
  - intros s. apply NoDup_remove_dups.
  - reflexivity.
  - intros x s y. rewrite !elem_of_remove_dups. unfold add_front.
    case_bool_decide as Hx.
    + split; [tauto|]. intros [->|?]; done.
    + rewrite elem_of_cons. tauto.
  - intros x s. rewrite elem_of_remove_dups. unfold add_front. intros Hx.
    by rewrite bool_decide_eq_true_2.
  - intros x s y. rewrite !elem_of_remove_dups. unfold discard.
    rewrite list_elem_of_filter. tauto.
  - intros x s. rewrite elem_of_remove_dups. unfold discard. intros Hx.
    induction s as [|a s IH]; [done|].
    rewrite filter_cons. apply not_elem_of_cons in Hx as [Hne Hx].
    rewrite decide_True by congruence. by rewrite IH.
Defined.

End SetOrders.

(** *** A concrete environment

    One process to run the client in: the set iterates in insertion order,
    [str()] is given on [None], the booleans and the strings (all that the
    responses below make it print), the payload types are bare strings, and
    the daemon acknowledges [subscribe] and [unsubscribe], rejects the
    account ["+000"] with the authorization failure and the account
    ["+111"] with another error, answers [send] with the results the
    message body selects, and answers [get_profile] with the response type
    ["profile_not_available"]. *)
Module Demo.

Definition set_order : PySet := SetOrders.back.

Definition format : PyFormat :=
  fun v => match v with
           | JNull => "None"
           | JBool true => "True"
           | JBool false => "False"
           | JStr s => s
           | _ => "?"
           end.

Definition types : SignaldTypes := {|
  Address := string;
  Address_serialize := JStr;
  Quote := string;
  Quote_serialize := JStr;
  Attachment := string;
  Attachment_serialize := JStr;
  Mention := string;
  Mention_serialize := JStr;
  Profile := json;
  Profile_deserialize := fun resp => inr resp |}.

Definition unregistered : json := JObj [("unregisteredFailure", JBool true)].

Definition delivered : json := JObj [("address", JObj [("number", JStr "+123")])].

Definition proof_required (options : list string) : json :=
  JObj [("proof_required_failure",
         JObj [("options", JList (map JStr options)); ("message", JStr "challenge")])].

Definition results_for (body : string) : list json :=
  if String.eqb body "one of three" then [delivered; unregistered; unregistered]
  else if String.eqb body "none of two" then [unregistered; unregistered]
  else if String.eqb body "push" then [proof_required ["PUSH_CHALLENGE"]]
  else if String.eqb body "captcha" then [proof_required ["RECAPTCHA"]]
  else if String.eqb body "both" then [proof_required ["RECAPTCHA"; "PUSH_CHALLENGE"]]
  else [delivered].

Definition daemon : Transport :=
  fun _ r =>
    if String.eqb (command r) "send" then
      match dict_lookup (params r) "messageBody" with
      | Some (JStr body) => inr (JObj [("results", JList (results_for body))])
      | _ => inr (JObj [])
      end
    else if String.eqb (command r) "get_profile" then
      inl (UnexpectedResponse "profile_not_available" JNull)
    else
      match dict_lookup (params r) "username" with
      | Some (JStr "+000") => inl (UnexpectedError authorization_failed)
      | Some (JStr "+111") => inl (UnexpectedError "socket closed")
      | _ => inr (JObj [])
      end.

(** The client after it has subscribed ["x"] and then ["y"] *)
Definition subscribed_xy : @Client set_order types :=
  snd (@subscribe set_order types daemon "y"
         (snd (@subscribe set_order types daemon "x" (@new_client set_order types)))).

End Demo.

(** *** Other daemons

    Response types that are the decoded data itself, and four daemons: one
    that rejects every request with the authorization failure, one that is
    not reachable, one that answers every request with an empty object, and
    one that answers [update_group] with both a legacy and a v2 group and
    any other request with one legacy group and two v2 groups. *)
Module Scenarios.

Definition responses : SignaldResponses := {|
  Account := json;
  Account_deserialize := fun resp => inr resp;
  LinkSession := json;
  LinkSession_deserialize := fun resp => inr resp;
  DeviceInfo := json;
  DeviceInfo_deserialize := fun resp => inr resp;
  Group := json;
  Group_deserialize := fun resp => inr resp;
  GroupV2 := json;
  GroupV2_deserialize := fun resp => inr resp;
  GetIdentitiesResponse := json;
  GetIdentitiesResponse_deserialize := fun resp => inr resp;
  Reaction := string;
  Reaction_serialize := JStr;
  Message_deserialize := fun data => inr data;
  StateChange_deserialize := fun _ => inl TypeError |}.

Definition rejecting : Transport :=
  fun _ _ => inl (UnexpectedError authorization_failed).

Definition unreachable : Transport :=
  fun _ _ => inl (RPCError "not connected").

Definition silent : Transport :=
  fun _ _ => inr (JObj []).

Definition grouped : Transport :=
  fun _ r =>
    if String.eqb (command r) "update_group"
    then inr (JObj [("v1", JStr "legacy"); ("v2", JStr "new")])
    else inr (JObj [("legacyGroups", JList [JStr "a"]);
                    ("groups", JList [JStr "b"; JStr "c"])]).

(** A handler that raises on every event, and one that returns *)
Definition failing_handler : Handler :=
  {| handler_name := "failing"; handler_run := fun _ => Some (Exception "handler") |}.

Definition quiet_handler : Handler :=
  {| handler_name := "quiet"; handler_run := fun _ => None |}.

(** A table of two rooms *)
Definition table : list DisappearingMessage.Row :=
  [{| DisappearingMessage.row_room_id := "!a";
      DisappearingMessage.row_mxid := "$1";
      DisappearingMessage.row_expiration_seconds := 60;
      DisappearingMessage.row_expiration_ts := None |};
   {| DisappearingMessage.row_room_id := "!b";
      DisappearingMessage.row_mxid := "$2";
      DisappearingMessage.row_expiration_seconds := 30;
      DisappearingMessage.row_expiration_ts := Some 1000%Z |}].

End Scenarios.

(** ** Running the registry *)

Section Registry.
Context `{PySet} `{PyFormat} `{SignaldTypes} `{Transport}.

Lemma run_handlers_spec (hs : list Handler) (evt : Event) (c : Client) :
  run_handlers hs evt c =
  (inr tt, mkClient (_event_handlers c) (_subscriptions c) (sent c) (dispatched c)
                    (handled c ++ handler_calls hs evt)
                    (log c ++ handler_failures hs evt)).
Proof.
  unfold run_handlers. revert c.
  induction hs as [|h hs IH]; intros c.
  - cbn. rewrite !app_nil_r. by destruct c.
  - cbn [for_each]. unfold bind at 1, try_except, call_handler.
    unfold handler_failures, handler_calls. cbn [omap map list_omap].
    destruct (handler_run h evt) as [e|] eqn:Hrun; cbn.
    + unfold write_log at 1. cbn. rewrite IH. cbn.
      unfold handler_failures, handler_calls. by rewrite <- !app_assoc.
    + rewrite IH. cbn. unfold handler_failures, handler_calls.
      by rewrite <- !app_assoc.
Qed.

Lemma run_event_handler_spec (evt : Event) (c : Client) :
  _run_event_handler evt c =
  (inr tt, mkClient (_event_handlers c) (_subscriptions c) (sent c)
                    (dispatched c ++ [evt])
                    (handled c ++ handler_calls (handlers_for c evt) evt)
                    (log c ++ dispatch_log c evt)).
Proof.
  unfold _run_event_handler, handlers_for, dispatch_log, bind, note_dispatched, get_client.
  cbn. destruct (_event_handlers c (type_of evt)) as [hs|] eqn:Hhs; cbn.
  - by rewrite run_handlers_spec.
  - unfold write_log. cbn. by rewrite app_nil_r.
Qed.

End Registry.

(** ** Subscriptions *)

Section Subscriptions.
Context `{PySet} `{PyFormat} `{SignaldTypes} `{Transport}.

Lemma subscribe_acknowledged (a : string) (c : Client) (resp : json) :
  transport_reply (sent c) (subscribe_request a) = inr resp ->
  subscribe a c =
  (inr true, mkClient (_event_handlers c) (pyset_add a (_subscriptions c))
                      (sent c ++ [subscribe_request a])
                      (dispatched c) (handled c) (log c)).
Proof.
  intros Hreply. unfold subscribe, try_except, bind, request, do_request.
  fold (subscribe_request a). rewrite Hreply. reflexivity.
Qed.

Lemma subscribe_classified (a msg : string) (c : Client) :
  transport_reply (sent c) (subscribe_request a) = inl (UnexpectedError msg) ->
  subscribe a c =
  (inr false,
   mkClient (_event_handlers c) (_subscriptions c)
            (sent c ++ [subscribe_request a])
            (dispatched c ++ [subscribe_failure_event a msg])
            (handled c ++ handler_calls (handlers_for c (subscribe_failure_event a msg))
                                        (subscribe_failure_event a msg))
            (log c ++ LogSubscribeFailed a (UnexpectedError msg)
                   :: dispatch_log c (subscribe_failure_event a msg))).
Proof.
  intros Hreply. unfold subscribe, try_except, request, do_request.
  fold (subscribe_request a). unfold bind at 1. rewrite Hreply.
  fold (subscribe_failure_event a msg).
  unfold bind, write_log, ret. rewrite run_event_handler_spec. cbn.
  by rewrite <- app_assoc.
Qed.

Lemma subscribe_unclassified (a : string) (e : Exn) (c : Client) :
  transport_reply (sent c) (subscribe_request a) = inl e ->
  classified e = false ->
  subscribe a c = (inl e, after_request (subscribe_request a) c).
Proof.
  intros Hreply He. unfold subscribe, try_except, bind, request, do_request.
  fold (subscribe_request a). rewrite Hreply. by destruct e.
Qed.

Lemma unsubscribe_acknowledged (a : string) (c : Client) (resp : json) :
  transport_reply (sent c) (unsubscribe_request a) = inr resp ->
  unsubscribe a c =
  if pyset_mem a (_subscriptions c)
  then (inr true, mkClient (_event_handlers c) (pyset_discard a (_subscriptions c))
                           (sent c ++ [unsubscribe_request a])
                           (dispatched c) (handled c) (log c))
  else (inl (KeyError a), after_request (unsubscribe_request a) c).
Proof.
  intros Hreply. unfold unsubscribe, try_except, bind, request, do_request.
  fold (unsubscribe_request a). rewrite Hreply. cbn.
  unfold lift, pyset_remove. cbn.
  by destruct (pyset_mem a (_subscriptions c)).
Qed.

Lemma unsubscribe_failed (a : string) (e : Exn) (c : Client) :
  transport_reply (sent c) (unsubscribe_request a) = inl e ->
  unsubscribe a c =
  if classified e
  then (inr false, mkClient (_event_handlers c) (_subscriptions c)
                            (sent c ++ [unsubscribe_request a])
                            (dispatched c) (handled c)
                            (log c ++ [LogUnsubscribeFailed a e]))
  else (inl e, after_request (unsubscribe_request a) c).
Proof.
  intros Hreply. unfold unsubscribe, try_except, bind, request, do_request.
  fold (unsubscribe_request a). rewrite Hreply. by destruct e.
Qed.

End Subscriptions.

Section SubscriptionClaims.
Context `{PySet} `{PyFormat} `{SignaldTypes} `{Transport}.

(** C3. The subscription set changes only on an acknowledgement.  An
    acknowledged [subscribe(a)] returns [True] and adds [a]; a [subscribe(a)]
    that is not acknowledged does not return [True] and leaves the set as it
    was (so [a] is not added; an account that was subscribed before stays).
    An acknowledged [unsubscribe(a)] of a subscribed account returns [True]
    and removes exactly [a]; an [unsubscribe(a)] that is not acknowledged
    leaves the set as it was, dispatches no event and calls no handler, and
    returns [False] when the failure is an [UnexpectedError]. *)
Theorem subscription_set_follows_acknowledgements (a : string) (c : Client) :
  (forall resp, transport_reply (sent c) (subscribe_request a) = inr resp ->
     fst (subscribe a c) = inr true /\
     forall y, y ∈ pyset_list (_subscriptions (snd (subscribe a c)))
               <-> y = a \/ y ∈ pyset_list (_subscriptions c)) /\
  (forall e, transport_reply (sent c) (subscribe_request a) = inl e ->
     fst (subscribe a c) = (if classified e then inr false else inl e) /\
     _subscriptions (snd (subscribe a c)) = _subscriptions c) /\
  (forall resp, transport_reply (sent c) (unsubscribe_request a) = inr resp ->
     a ∈ pyset_list (_subscriptions c) ->
     fst (unsubscribe a c) = inr true /\
     forall y, y ∈ pyset_list (_subscriptions (snd (unsubscribe a c)))
               <-> y <> a /\ y ∈ pyset_list (_subscriptions c)) /\
  (forall e, transport_reply (sent c) (unsubscribe_request a) = inl e ->
     fst (unsubscribe a c) = (if classified e then inr false else inl e) /\
     _subscriptions (snd (unsubscribe a c)) = _subscriptions c /\
     dispatched (snd (unsubscribe a c)) = dispatched c /\
     handled (snd (unsubscribe a c)) = handled c).
Proof.
  split; [|split; [|split]].
  - intros resp Hreply. rewrite (subscribe_acknowledged _ _ _ Hreply). cbn.
    split; [done|]. intros y. apply elem_of_pyset_add.
  - intros e Hreply. destruct (classified e) eqn:He.
    + destruct e; try discriminate.
      by rewrite (subscribe_classified _ _ _ Hreply).
    + by rewrite (subscribe_unclassified _ _ _ Hreply He).
  - intros resp Hreply Hin. rewrite (unsubscribe_acknowledged _ _ _ Hreply).
    unfold pyset_mem. rewrite bool_decide_eq_true_2 by done. cbn.
    split; [done|]. intros y. apply elem_of_pyset_discard.
  - intros e Hreply. rewrite (unsubscribe_failed _ _ _ Hreply).
    by destruct (classified e).
Qed.

(** C4. When [subscribe(a)] fails with an [UnexpectedError], exactly one
    [WebsocketConnectionStateChangeEvent] for [a] is handed to the registry
    (and to every handler registered for it, once, in registration order);
    its state is [AUTHENTICATION_FAILED] exactly when the text of the error
    is the authorization-failure signature and [DISCONNECTED] otherwise; the
    call returns [False]. *)
Theorem subscribe_failure_synthesizes_one_event (a msg : string) (c : Client) :
  transport_reply (sent c) (subscribe_request a) = inl (UnexpectedError msg) ->
  exists state,
    let evt := WebsocketConnectionStateChangeEvent state a None in
    fst (subscribe a c) = inr false /\
    dispatched (snd (subscribe a c)) = dispatched c ++ [evt] /\
    handled (snd (subscribe a c)) = handled c ++ handler_calls (handlers_for c evt) evt /\
    (state = AUTHENTICATION_FAILED <-> msg = "[401] Authorization failed!") /\
    (state = DISCONNECTED <-> msg <> "[401] Authorization failed!").
Proof.
  intros Hreply. rewrite (subscribe_classified _ _ _ Hreply).
  unfold subscribe_failure_event, authorization_failed. cbn.
  destruct (String.eqb_spec msg "[401] Authorization failed!") as [Heq|Hne].
  - exists AUTHENTICATION_FAILED. repeat split; try done.
  - exists DISCONNECTED. repeat split; try done.
Qed.

(** C10. When the daemon acknowledges [unsubscribe(a)] for an account that is
    not in the subscription set, the call raises [KeyError] (the set is left
    as it was); [unsubscribe] returns [False] only when the request failed
    with an [UnexpectedError]. *)
Theorem unsubscribe_of_untracked_account_raises (a : string) (c : Client) (resp : json) :
  a ∉ pyset_list (_subscriptions c) ->
  transport_reply (sent c) (unsubscribe_request a) = inr resp ->
  fst (unsubscribe a c) = inl (KeyError a) /\
  _subscriptions (snd (unsubscribe a c)) = _subscriptions c /\
  forall b c', fst (unsubscribe b c') = inr false <->
               exists msg, transport_reply (sent c') (unsubscribe_request b)
                           = inl (UnexpectedError msg).
Proof.
  intros Hnotin Hreply. rewrite (unsubscribe_acknowledged _ _ _ Hreply).
  unfold pyset_mem. rewrite bool_decide_eq_false_2 by done. cbn.
  split; [done|]. split; [done|].
  intros b c'.
  destruct (transport_reply (sent c') (unsubscribe_request b)) as [e|r] eqn:Hb.
  - rewrite (unsubscribe_failed _ _ _ Hb).
    destruct e; cbn; split; try discriminate; try (intros [m Hm]; discriminate); eauto.
  - rewrite (unsubscribe_acknowledged _ _ _ Hb).
    destruct (pyset_mem b (_subscriptions c')); cbn;
      split; try discriminate; intros [m Hm]; discriminate.
Qed.

End SubscriptionClaims.

(** ** The transport's lifecycle signals *)

Section Lifecycle.
Context `{PySet} `{PyFormat} `{SignaldTypes} `{Transport}.

Lemma for_each_cons {A} (x : A) (l : list A) (body : A -> M unit) (c : Client) :
  for_each (x :: l) body c =
  match body x c with
  | (inr _, c') => for_each l body c'
  | (inl e, c') => (inl e, c')
  end.
Proof. reflexivity. Qed.

Lemma resubscribe_loop_cons (a : string) (l : list string) (c : Client) :
  resubscribe_loop (a :: l) c =
  match subscribe a c with
  | (inr _, c') => resubscribe_loop l c'
  | (inl e, c') => (inl e, c')
  end.
Proof.
  unfold resubscribe_loop. rewrite for_each_cons. unfold bind, ret.
  by destruct (subscribe a c) as [[e|b] c'].
Qed.

Lemma resubscribe_loop_returns (l : list string) (c : Client) :
  fst (resubscribe_loop l c) = inr tt ->
  sent (snd (resubscribe_loop l c)) = sent c ++ map subscribe_request l.
Proof.
  revert c. induction l as [|a l IH]; intros c.
  - cbn. by rewrite app_nil_r.
  - rewrite resubscribe_loop_cons.
    destruct (transport_reply (sent c) (subscribe_request a)) as [e|resp] eqn:Hreply.
    + destruct (classified e) eqn:He.
      * destruct e; try discriminate.
        rewrite (subscribe_classified _ _ _ Hreply).
        intros Hret. rewrite (IH _ Hret). cbn. by rewrite <- app_assoc.
      * rewrite (subscribe_unclassified _ _ _ Hreply He). cbn. discriminate.
    + rewrite (subscribe_acknowledged _ _ _ Hreply).
      intros Hret. rewrite (IH _ Hret). cbn. by rewrite <- app_assoc.
Qed.

Lemma resubscribe_loop_raises (l : list string) (c : Client) (e : Exn) :
  fst (resubscribe_loop l c) = inl e ->
  classified e = false /\
  exists k a,
    l !! k = Some a /\
    transport_reply (sent c ++ map subscribe_request (take k l)) (subscribe_request a) = inl e /\
    sent (snd (resubscribe_loop l c)) = sent c ++ map subscribe_request (take (S k) l).
Proof.
  revert c. induction l as [|a l IH]; intros c.
  - cbn. discriminate.
  - rewrite resubscribe_loop_cons.
    destruct (transport_reply (sent c) (subscribe_request a)) as [e'|resp] eqn:Hreply.
    + destruct (classified e') eqn:He.
      * destruct e'; try discriminate.
        rewrite (subscribe_classified _ _ _ Hreply).
        intros Hraise. destruct (IH _ Hraise) as (Hcl & k & b & Hk & Hrep & Hsent).
        split; [done|]. exists (S k), b. cbn in *.
        rewrite <- !app_assoc in *. done.
      * rewrite (subscribe_unclassified _ _ _ Hreply He). cbn.
        intros [= <-]. split; [done|]. exists 0, a. cbn.
        rewrite app_nil_r. done.
    + rewrite (subscribe_acknowledged _ _ _ Hreply).
      intros Hraise. destruct (IH _ Hraise) as (Hcl & k & b & Hk & Hrep & Hsent).
      split; [done|]. exists (S k), b. cbn in *.
      rewrite <- !app_assoc in *. done.
Qed.

(** [_resubscribe] is its loop over the snapshot, after one log line when
    the set is not empty. *)
Lemma resubscribe_unfold (c : Client) :
  exists c0,
    sent c0 = sent c /\
    _resubscribe c = resubscribe_loop (pyset_list (_subscriptions c)) c0.
Proof.
  unfold _resubscribe, pyset_truthy, bind at 1, get_client.
  destruct (pyset_list (_subscriptions c)) as [|a l] eqn:Hl.
  - exists c. done.
  - unfold bind at 1, write_log. eexists. split; [|reflexivity]. done.
Qed.

(** C5 as amended.  On CONNECT a [subscribe] request is issued for the
    accounts of the snapshot [list(self._subscriptions)], one request per
    account, one after the other, in the order in which the set iterates
    (which the set does not tie to the order of registration).  The loop
    stops early only when a request raises an error that [subscribe] does
    not catch; the requests issued are then those up to and including that
    one. *)
Theorem resubscribe_follows_snapshot (c : Client) :
  let snapshot := pyset_list (_subscriptions c) in
  NoDup snapshot /\
  (forall a, a ∈ snapshot <-> pyset_mem a (_subscriptions c) = true) /\
  (fst (_resubscribe c) = inr tt ->
   sent (snd (_resubscribe c)) = sent c ++ map subscribe_request snapshot) /\
  (forall e, fst (_resubscribe c) = inl e ->
     classified e = false /\
     exists k a,
       snapshot !! k = Some a /\
       transport_reply (sent c ++ map subscribe_request (take k snapshot))
                       (subscribe_request a) = inl e /\
       sent (snd (_resubscribe c))
       = sent c ++ map subscribe_request (take (S k) snapshot)) /\
  ((forall history r e, transport_reply history r = inl e -> classified e = true) ->
   fst (_resubscribe c) = inr tt).
Proof.
  cbv zeta. destruct (resubscribe_unfold c) as (c0 & Hsent & Hrun).
  split; [apply pyset_list_NoDup|].
  split; [intros a; unfold pyset_mem; by rewrite bool_decide_eq_true|].
  split; [|split].
  - rewrite Hrun. intros Hret. by rewrite (resubscribe_loop_returns _ _ Hret), Hsent.
  - rewrite Hrun. intros e Hraise.
    destruct (resubscribe_loop_raises _ _ _ Hraise) as (Hcl & k & a & Hk & Hrep & Hs).
    split; [done|]. exists k, a. by rewrite <- Hsent.
  - intros Hall. rewrite Hrun.
    destruct (fst (resubscribe_loop (pyset_list (_subscriptions c)) c0)) as [e|[]] eqn:Hres;
      [|done].
    destruct (resubscribe_loop_raises _ _ _ Hres) as (Hcl & k & a & _ & Hrep & _).
    apply Hall in Hrep. congruence.
Qed.

Lemma disconnect_loop_spec (l : list string) (c : Client) :
  disconnect_loop l c =
  (inr tt,
   mkClient (_event_handlers c) (_subscriptions c) (sent c)
            (dispatched c ++ map socket_disconnected_event l)
            (handled c ++ flat_map (fun a => handler_calls
                                      (handlers_for c (socket_disconnected_event a))
                                      (socket_disconnected_event a)) l)
            (log c ++ flat_map (fun a => dispatch_log c (socket_disconnected_event a)) l)).
Proof.
  unfold disconnect_loop. revert c. induction l as [|a l IH]; intros c.
  - cbn. rewrite !app_nil_r. by destruct c.
  - rewrite for_each_cons, run_event_handler_spec, IH. cbn.
    by rewrite <- !app_assoc.
Qed.

Lemma on_disconnect_unfold (c : Client) :
  _on_disconnect c =
  if pyset_truthy (_subscriptions c)
  then disconnect_loop (pyset_list (_subscriptions c))
                       (snd (write_log LogNotifyingDisconnect c))
  else (inr tt, c).
Proof.
  unfold _on_disconnect, bind, get_client.
  by destruct (pyset_truthy (_subscriptions c)).
Qed.

(** C6.  On DISCONNECT one [WebsocketConnectionStateChangeEvent] with state
    [SOCKET_DISCONNECTED] and the cause ["Disconnected from signald"] is
    synthesized for every account of the subscription set, once per
    account, and dispatched: it is handed to the registry and to every
    handler registered for it, in registration order, and the registry logs
    what the dispatch of each event logs (the exception of a handler that
    raises, a warning when the class has no entry).  The handler returns,
    issues no request, and the subscription set and the registry after it
    are those before it. *)
Theorem disconnect_notifies_each_account (c : Client) :
  let accounts := pyset_list (_subscriptions c) in
  let evt a := WebsocketConnectionStateChangeEvent
                 SOCKET_DISCONNECTED a (Some "Disconnected from signald") in
  let c' := snd (_on_disconnect c) in
  fst (_on_disconnect c) = inr tt /\
  dispatched c' = dispatched c ++ map evt accounts /\
  handled c' = handled c ++
    flat_map (fun a => map (fun h => (handler_name h, evt a)) (handlers_for c (evt a)))
             accounts /\
  log c' = log c ++
    match accounts with
    | [] => []
    | _ :: _ =>
        LogNotifyingDisconnect ::
        flat_map (fun a =>
                    match _event_handlers c WebsocketConnectionStateChangeEventClass with
                    | None => [LogNoHandlers WebsocketConnectionStateChangeEventClass]
                    | Some handlers =>
                        omap (fun h => LogHandlerException <$> handler_run h (evt a))
                             handlers
                    end) accounts
    end /\
  NoDup accounts /\
  _subscriptions c' = _subscriptions c /\
  _event_handlers c' = _event_handlers c /\
  sent c' = sent c.
Proof.
  cbv zeta. rewrite on_disconnect_unfold. unfold pyset_truthy.
  pose proof (pyset_list_NoDup (_subscriptions c)) as Hnd.
  destruct (pyset_list (_subscriptions c)) as [|a l] eqn:Hl.
  - cbn. by rewrite !app_nil_r.
  - rewrite disconnect_loop_spec. cbn. rewrite <- app_assoc. done.
Qed.

End Lifecycle.

(** ** Profiles and trust *)

Section Commands.
Context `{PySet} `{PyFormat} `{SignaldTypes} `{Transport}.

Lemma get_profile_run (username : string) (address : Address) (use_cache : bool)
    (c : Client) :
  get_profile username address use_cache c =
  (match transport_reply (sent c) (get_profile_request username address use_cache) with
   | inr resp => match Profile_deserialize resp with
                 | inr profile => inr (Some profile)
                 | inl e => inl e
                 end
   | inl (UnexpectedResponse resp_type data) =>
       if String.eqb resp_type "profile_not_available" then inr None
       else inl (UnexpectedResponse resp_type data)
   | inl e => inl e
   end,
   after_request (get_profile_request username address use_cache) c).
Proof.
  unfold get_profile, try_except, bind, request_v1, do_request, lift, ret, raise.
  fold (get_profile_request username address use_cache). unfold after_request.
  destruct (transport_reply _ _) as [e|resp].
  - destruct e; try reflexivity.
    by destruct (String.eqb resp_type "profile_not_available").
  - by destruct (Profile_deserialize resp).
Qed.

(** C7.  [get_profile] returns [None] when the request raises an
    [UnexpectedResponse] whose response type is ["profile_not_available"];
    an [UnexpectedResponse] with any other response type, and any other
    error of the request, reaches the caller as it was raised. *)
Theorem get_profile_not_available_is_none
    (username : string) (address : Address) (use_cache : bool) (c : Client) :
  let reply := transport_reply (sent c) (get_profile_request username address use_cache) in
  let outcome := fst (get_profile username address use_cache c) in
  (forall data, reply = inl (UnexpectedResponse "profile_not_available" data) ->
     outcome = inr None) /\
  (forall resp_type data, resp_type <> "profile_not_available" ->
     reply = inl (UnexpectedResponse resp_type data) ->
     outcome = inl (UnexpectedResponse resp_type data)) /\
  (forall e, (forall resp_type data, e <> UnexpectedResponse resp_type data) ->
     reply = inl e -> outcome = inl e).
Proof.
  cbv zeta. rewrite get_profile_run. cbn [fst].
  split; [|split].
  - intros data ->. reflexivity.
  - intros resp_type data Hne ->.
    apply String.eqb_neq in Hne. by rewrite Hne.
  - intros e Hother ->. destruct e; try reflexivity.
    by destruct (Hother resp_type data).
Qed.

Lemma str_truthy_supplied (arg : option string) :
  str_truthy arg = true <-> supplied arg.
Proof.
  unfold str_truthy, supplied. destruct arg as [s|]; cbn.
  - rewrite negb_true_iff, String.eqb_neq. split.
    + intros Hs. by exists s.
    + by intros (s' & [= <-] & Hs).
  - split; [discriminate|]. by intros (s & Hs & _).
Qed.

Lemma str_truthy_not_supplied (arg : option string) :
  str_truthy arg = false <-> ~ supplied arg.
Proof.
  rewrite <- str_truthy_supplied. by destruct (str_truthy arg).
Qed.

(** C8 as amended.  [trust] called with both a non-empty [safety_number]
    and a non-empty [qr_code_data], or with neither, raises [ValueError] and
    leaves the client as it was: no request has been issued.  Called with
    exactly one non-empty argument, it issues the [trust] request carrying
    that argument and returns what the request gives.  An argument that is
    [None] or the empty string counts as not supplied, as the truth tests
    of the code have it. *)
Theorem trust_validates_before_request
    (username : string) (recipient : Address) (trust_level : string)
    (safety_number qr_code_data : option string) (c : Client) :
  let call := trust username recipient trust_level safety_number qr_code_data c in
  (supplied safety_number -> supplied qr_code_data ->
     exists msg, call = (inl (ValueError msg), c)) /\
  (~ supplied safety_number -> ~ supplied qr_code_data ->
     exists msg, call = (inl (ValueError msg), c)) /\
  (forall s, safety_number = Some s -> s <> "" -> ~ supplied qr_code_data ->
     let r := trust_request username recipient trust_level "safety_number" s in
     call = (match transport_reply (sent c) r with inr _ => inr tt | inl e => inl e end,
             after_request r c)) /\
  (forall q, qr_code_data = Some q -> q <> "" -> ~ supplied safety_number ->
     let r := trust_request username recipient trust_level "qr_code_data" q in
     call = (match transport_reply (sent c) r with inr _ => inr tt | inl e => inl e end,
             after_request r c)).
Proof.
  cbv zeta. unfold trust.
  split; [|split; [|split]].
  - intros Hs Hq. apply str_truthy_supplied in Hs, Hq.
    unfold bind, raise. rewrite Hs, Hq. eauto.
  - intros Hs Hq. apply str_truthy_not_supplied in Hs, Hq.
    unfold bind, raise. rewrite Hs, Hq. eauto.
  - intros s -> Hs Hq. apply str_truthy_not_supplied in Hq.
    assert (str_truthy (Some s) = true) as Ht
      by (apply str_truthy_supplied; by exists s).
    unfold bind, ret, request_v1, do_request. rewrite Ht, Hq. cbn.
    fold (trust_request username recipient trust_level "safety_number" s).
    by destruct (transport_reply _ _).
  - intros q -> Hq Hs. apply str_truthy_not_supplied in Hs.
    assert (str_truthy (Some q) = true) as Ht
      by (apply str_truthy_supplied; by exists q).
    unfold bind, ret, request_v1, do_request. rewrite Ht, Hs. cbn.
    fold (trust_request username recipient trust_level "qr_code_data" q).
    by destruct (transport_reply _ _).
Qed.

End Commands.

(** ** The repository *)

(** C9.  [DisappearingMessage.get] returns [None] when no row of the table
    has the room and event identifiers asked for, and when the read fails
    with any error; it returns a value on every database and key, so no
    error reaches the caller. *)
Theorem disappearing_message_get_absent (room_id event_id : string) :
  (forall table,
     (forall r, r ∈ table ->
        ~ (DisappearingMessage.row_room_id r = room_id /\
           DisappearingMessage.row_mxid r = event_id)) ->
     DisappearingMessage.get (DisappearingMessage.Serving table) room_id event_id
     = inr None) /\
  (forall e,
     DisappearingMessage.get (DisappearingMessage.Failing e) room_id event_id
     = inr None) /\
  (forall db, exists result,
     DisappearingMessage.get db room_id event_id = inr result).
Proof.
  split; [|split].
  - intros table Hnone.
    unfold DisappearingMessage.get, DisappearingMessage.get_body,
      DisappearingMessage.fetchrow.
    destruct (find _ table) as [r|] eqn:Hfind; [|done].
    apply find_some in Hfind as [Hin Hkey].
    apply list_elem_of_In in Hin.
    unfold DisappearingMessage.key_matches in Hkey.
    apply andb_prop in Hkey as [Hroom Hmxid].
    apply String.eqb_eq in Hroom, Hmxid.
    by destruct (Hnone r Hin).
  - intros e. reflexivity.
  - intros db. unfold DisappearingMessage.get.
    destruct (DisappearingMessage.get_body db room_id event_id); eauto.
Qed.

(** ** The send pipeline *)

Section SendPipeline.
Context `{PySet} `{PyFormat} `{SignaldTypes} `{Transport}.

Lemma send_run (username : string) (recipient : Recipient) (body : string)
    (quote : option Quote) (attachments : option (list Attachment))
    (mentions : option (list Mention)) (timestamp : option Z) (c : Client) :
  let r := send_request username recipient body quote attachments mentions timestamp in
  send username recipient body quote attachments mentions timestamp c =
  match transport_reply (sent c) r with
  | inl e => (inl e, after_request r c)
  | inr resp => send_classify recipient resp (after_request r c)
  end.
Proof.
  cbv zeta. unfold send, bind, request_v1, do_request.
  fold (send_request username recipient body quote attachments mentions timestamp).
  by destruct (transport_reply _ _).
Qed.

Lemma send_classify_run (recipient : Recipient) (resp : json) (items : list json)
    (c : Client) :
  py_get resp "results" (JList []) = inr (JList items) ->
  send_classify recipient resp c =
  match classify_results (mkAcc [] [] 0) items c with
  | (inl e, c1) => (inl e, c1)
  | (inr acc, c1) =>
      (match final_errors acc (length items) with
       | [] => inr tt
       | errs => inl (Exception (py_join newline errs))
       end,
       with_summary recipient acc (length items) c1)
  end.
Proof.
  intros Hresults. unfold send_classify, bind, lift. rewrite Hresults. cbn [py_iter].
  destruct (classify_results _ items c) as [[e|acc] c1]; [done|].
  unfold write_log, with_summary, ret, raise.
  by destruct (final_errors acc (length items)).
Qed.

(** One iteration of the loop, branch by branch *)
Lemma classify_result_run (acc : SendAcc) (kvs : list (string * json)) (number : json)
    (c : Client) :
  result_number (JObj kvs) = inr number ->
  classify_result acc (JObj kvs) c =
  match branch_of_fields kvs with
  | NetworkFailure =>
      (inr (mkAcc (errors acc ++ [network_failure_line number])
                  (unregistered_failures acc) (successful_send_count acc)), c)
  | UnregisteredFailure =>
      (inr (mkAcc (errors acc)
                  (unregistered_failures acc ++ [unregistered_failure_line number])
                  (successful_send_count acc)), c)
  | IdentityFailure =>
      (inr (mkAcc (errors acc ++
                   [identity_failure_line number
                      (default (JStr "") (dict_lookup kvs "identityFailure"))])
                  (unregistered_failures acc) (successful_send_count acc)), c)
  | ProofRequiredFailure =>
      on_proof_required acc number
        (default JNull (dict_lookup kvs "proof_required_failure")) c
  | Delivered =>
      (inr (mkAcc (errors acc) (unregistered_failures acc)
                  (S (successful_send_count acc))), c)
  end.
Proof.
  intros Hnumber. unfold classify_result, branch_of_fields.
  unfold bind at 1, lift at 1. rewrite Hnumber.
  unfold bind, lift, ret, py_get_none, py_get, py_index.
  destruct (truthy (default (JBool false) (dict_lookup kvs "networkFailure"))); [done|].
  destruct (truthy (default (JBool false) (dict_lookup kvs "unregisteredFailure"))); [done|].
  destruct (dict_lookup kvs "identityFailure") as [identity|] eqn:Hid;
    cbn [default from_option id].
  - destruct (truthy identity); [done|].
    by destruct (truthy (default JNull (dict_lookup kvs "proof_required_failure"))).
  - cbn [truthy String.eqb negb].
    by destruct (truthy (default JNull (dict_lookup kvs "proof_required_failure"))).
Qed.

(** A result that is not a dict, or whose ["addres"] entry is not one, stops
    the loop. *)
Lemma classify_result_malformed (acc : SendAcc) (result : json) (c : Client) :
  branch_of result = None ->
  exists e, classify_result acc result c = (inl e, c).
Proof.
  unfold branch_of, classify_result. intros Hbranch.
  unfold bind at 1, lift at 1.
  destruct (result_number result) as [e|number] eqn:Hnumber; [by exists e|].
  destruct result; try (cbn in Hnumber; discriminate).
  rewrite Hnumber in Hbranch. discriminate.
Qed.

(** The proof-required branch on a failure that is a dict *)
Lemma on_proof_required_run (acc : SendAcc) (number : json)
    (fields : list (string * json)) (c : Client) :
  let options := default JNull (dict_lookup fields "options") in
  let message := default JNull (dict_lookup fields "message") in
  let acc1 := mkAcc (errors acc ++ [proof_required_line number message])
                    (unregistered_failures acc) (successful_send_count acc) in
  let c1 := with_proof_warning fields c in
  on_proof_required acc number (JObj fields) c =
  match py_contains "RECAPTCHA" options with
  | inl e => (inl e, c1)
  | inr true =>
      (inr (mkAcc (errors acc1 ++ [recaptcha_line])
                  (unregistered_failures acc) (successful_send_count acc)), c1)
  | inr false =>
      match py_contains "PUSH_CHALLENGE" options with
      | inl e => (inl e, c1)
      | inr true =>
          (match transport_reply (sent c) submit_challenge_request with
           | inr _ => inr acc1
           | inl e => inl e
           end, after_request submit_challenge_request c1)
      | inr false => (inr acc1, c1)
      end
  end.
Proof.
  cbv zeta. unfold on_proof_required, bind, lift, ret, write_log, py_get_none, py_get.
  unfold with_proof_warning.
  destruct (py_contains "RECAPTCHA" _) as [e|[|]]; [done|done|].
  destruct (py_contains "PUSH_CHALLENGE" _) as [e|[|]]; [done| |done].
  unfold request_v1, do_request, after_request. cbn.
  fold submit_challenge_request.
  by destruct (transport_reply (sent c) submit_challenge_request).
Qed.

(** A truthy failure that is not a dict has no [get] *)
Lemma on_proof_required_malformed (acc : SendAcc) (number failure : json) (c : Client) :
  (forall fields, failure <> JObj fields) ->
  on_proof_required acc number failure c = (inl AttributeError, c).
Proof.
  intros Hnot. unfold on_proof_required, bind, lift, py_get_none, py_get.
  destruct failure; try reflexivity. by destruct (Hnot kvs).
Qed.

(** The proof-required branch never returns without a new error line *)
Lemma on_proof_required_adds_error (acc acc' : SendAcc) (number failure : json)
    (c c' : Client) :
  on_proof_required acc number failure c = (inr acc', c') ->
  exists extra, extra <> [] /\ errors acc' = errors acc ++ extra.
Proof.
  destruct failure as [| | | | |fields];
    try (rewrite on_proof_required_malformed by done; discriminate).
  rewrite on_proof_required_run.
  destruct (py_contains "RECAPTCHA" _) as [e|[|]]; [discriminate| |].
  - intros [= <- _]. cbn. rewrite <- app_assoc. eexists. split; [|reflexivity]. done.
  - destruct (py_contains "PUSH_CHALLENGE" _) as [e|[|]]; [discriminate| |].
    + destruct (transport_reply _ _); [discriminate|].
      intros [= <- _]. cbn. eexists. split; [|reflexivity]. done.
    + intros [= <- _]. cbn. eexists. split; [|reflexivity]. done.
Qed.

(** The error list only grows along the loop *)
Lemma classify_result_errors_grow (acc acc' : SendAcc) (result : json) (c c' : Client) :
  classify_result acc result c = (inr acc', c') ->
  exists extra,
    errors acc' = errors acc ++ extra /\
    (reports_proof_required result = true -> extra <> []).
Proof.
  unfold reports_proof_required.
  destruct (branch_of result) as [branch|] eqn:Hbranch.
  - unfold branch_of in Hbranch.
    destruct result as [| | | | |kvs]; try discriminate.
    destruct (result_number (JObj kvs)) as [e|number] eqn:Hnumber; [discriminate|].
    injection Hbranch as <-.
    rewrite (classify_result_run _ _ _ _ Hnumber).
    destruct (branch_of_fields kvs).
    + intros [= <- _]. cbn. eauto.
    + intros [= <- _]. cbn. exists []. by rewrite app_nil_r.
    + intros [= <- _]. cbn. eauto.
    + intros Hrun. apply on_proof_required_adds_error in Hrun as (extra & Hne & Hext).
      eauto.
    + intros [= <- _]. cbn. exists []. by rewrite app_nil_r.
  - destruct (classify_result_malformed acc result c Hbranch) as [e ->]. discriminate.
Qed.

Lemma classify_results_errors_grow (items : list json) (acc acc' : SendAcc) (c c' : Client) :
  classify_results acc items c = (inr acc', c') ->
  exists extra,
    errors acc' = errors acc ++ extra /\
    ((exists result, result ∈ items /\ reports_proof_required result = true) ->
     extra <> []).
Proof.
  revert acc c. induction items as [|result items IH]; intros acc c.
  - cbn. intros [= <- _]. exists []. rewrite app_nil_r. split; [done|].
    intros (r & Hin & _). by apply elem_of_nil in Hin.
  - cbn [classify_results]. unfold bind.
    destruct (classify_result acc result c) as [[e|acc1] c1] eqn:Hstep; [discriminate|].
    intros Hrest.
    apply classify_result_errors_grow in Hstep as (extra1 & Hext1 & Hne1).
    apply IH in Hrest as (extra2 & Hext2 & Hne2).
    exists (extra1 ++ extra2). rewrite Hext2, Hext1, <- app_assoc. split; [done|].
    intros (r & Hin & Hr). apply elem_of_cons in Hin as [->|Hin].
    + specialize (Hne1 Hr). by destruct extra1.
    + assert (extra2 <> []) by eauto. destruct extra1; [done|discriminate].
Qed.

Lemma branch_of_Some (result : json) (branch : Branch) :
  branch_of result = Some branch ->
  exists kvs number,
    result = JObj kvs /\ result_number (JObj kvs) = inr number /\
    branch_of_fields kvs = branch.
Proof.
  unfold branch_of. destruct result as [| | | | |kvs]; try discriminate.
  destruct (result_number (JObj kvs)) as [e|number] eqn:Hnumber; [discriminate|].
  intros [= <-]. by exists kvs, number.
Qed.

Lemma unregistered_lines_cons (result : json) (items : list json) :
  unregistered_lines (result :: items) =
  match result_number result with
  | inr number => if reports_unregistered result
                  then [unregistered_failure_line number] else []
  | inl _ => []
  end ++ unregistered_lines items.
Proof. reflexivity. Qed.

Lemma deliveries_cons (result : json) (items : list json) :
  deliveries (result :: items) =
  (if reports_delivery result then 1 else 0) + deliveries items.
Proof.
  unfold deliveries. rewrite filter_cons.
  destruct (reports_delivery result).
  - by rewrite decide_True.
  - by rewrite decide_False.
Qed.

(** The loop over results that each report a delivery or an unregistered
    recipient: no error, no request, one line per unregistered recipient. *)
Lemma classify_results_benign (items : list json) (acc : SendAcc) (c : Client) :
  (forall result, result ∈ items ->
     reports_delivery result = true \/ reports_unregistered result = true) ->
  classify_results acc items c =
  (inr (mkAcc (errors acc)
              (unregistered_failures acc ++ unregistered_lines items)
              (successful_send_count acc + deliveries items)), c) /\
  length (unregistered_lines items) + deliveries items = length items.
Proof.
  revert acc. induction items as [|result items IH]; intros acc Hall.
  - cbn. rewrite app_nil_r, Nat.add_0_r. by destruct acc.
  - assert (forall r, r ∈ items ->
              reports_delivery r = true \/ reports_unregistered r = true) as Hrest
      by (intros r Hr; apply Hall; by right).
    specialize (Hall result (list_elem_of_here _ _)).
    assert ((reports_delivery result = true /\ reports_unregistered result = false /\
             branch_of result = Some Delivered) \/
            (reports_unregistered result = true /\ reports_delivery result = false /\
             branch_of result = Some UnregisteredFailure)) as Hcases.
    { unfold reports_delivery, reports_unregistered in *.
      destruct (branch_of result) as [[]|]; destruct Hall; try discriminate; auto. }
    cbn [classify_results]. unfold bind.
    rewrite unregistered_lines_cons, deliveries_cons.
    destruct Hcases as [(Hd & Hu & Hb)|(Hu & Hd & Hb)];
      destruct (branch_of_Some _ _ Hb) as (kvs & number & -> & Hnumber & Hfields);
      rewrite (classify_result_run _ _ _ _ Hnumber), Hfields, Hnumber, Hd, Hu.
    + destruct (IH (mkAcc (errors acc) (unregistered_failures acc)
                          (S (successful_send_count acc))) Hrest) as [-> Hlen].
      cbn. split; [|lia]. do 3 f_equal. lia.
    + destruct (IH (mkAcc (errors acc)
                          (unregistered_failures acc ++ [unregistered_failure_line number])
                          (successful_send_count acc)) Hrest) as [-> Hlen].
      cbn. rewrite <- app_assoc. cbn. split; [done|]. by rewrite Hlen.
Qed.

Lemma deliveries_pos (items : list json) :
  (exists result, result ∈ items /\ reports_delivery result = true) ->
  0 < deliveries items.
Proof.
  intros (r & Hin & Hr). unfold deliveries.
  assert (r ∈ filter (fun result => reports_delivery result = true) items) as Hf
    by (by apply list_elem_of_filter).
  destruct (filter _ items); [by apply elem_of_nil in Hf|cbn; lia].
Qed.

Lemma deliveries_none (items : list json) :
  (forall result, result ∈ items -> reports_unregistered result = true) ->
  deliveries items = 0.
Proof.
  induction items as [|result items IH]; intros Hall; [done|].
  rewrite deliveries_cons, IH by (intros r Hr; apply Hall; by right).
  specialize (Hall result (list_elem_of_here _ _)).
  unfold reports_delivery, reports_unregistered in *.
  by destruct (branch_of result) as [[]|].
Qed.

Lemma final_errors_promotes (acc : SendAcc) (total : nat) :
  (length (unregistered_failures acc) = total ->
   final_errors acc total = errors acc ++ unregistered_failures acc) /\
  (length (unregistered_failures acc) <> total -> final_errors acc total = errors acc).
Proof.
  unfold final_errors.
  destruct (Nat.eqb_spec (length (unregistered_failures acc)) total); split; done.
Qed.

(** C1.  When the response to [send] carries a list of results and the loop
    over it runs to its end, the call raises the joined error lines exactly
    when the final error list is not empty and returns otherwise; the
    unregistered-failure lines are in the final list exactly when there are
    as many of them as there are results.  (An exception raised inside the
    loop leaves the call as it is.)  In particular, a send whose results
    are deliveries and unregistered failures returns when at least one is a
    delivery, logging the deliveries, the total and the unregistered
    failures, and raises all the unregistered-failure lines when every
    result is an unregistered failure. *)
Theorem send_raises_iff_errors_remain
    (username : string) (recipient : Recipient) (body : string)
    (quote : option Quote) (attachments : option (list Attachment))
    (mentions : option (list Mention)) (timestamp : option Z)
    (c : Client) (resp : json) (items : list json) :
  let r := send_request username recipient body quote attachments mentions timestamp in
  let call := send username recipient body quote attachments mentions timestamp c in
  transport_reply (sent c) r = inr resp ->
  py_get resp "results" (JList []) = inr (JList items) ->
  (forall acc c1,
     classify_results (mkAcc [] [] 0) items (after_request r c) = (inr acc, c1) ->
     let final := final_errors acc (length items) in
     (fst call = inr tt <-> final = []) /\
     (fst call = inl (Exception (py_join newline final)) <-> final <> []) /\
     (length (unregistered_failures acc) = length items ->
      final = errors acc ++ unregistered_failures acc) /\
     (length (unregistered_failures acc) <> length items -> final = errors acc)) /\
  (forall e c1,
     classify_results (mkAcc [] [] 0) items (after_request r c) = (inl e, c1) ->
     fst call = inl e) /\
  ((forall result, result ∈ items ->
      reports_delivery result = true \/ reports_unregistered result = true) ->
   (exists result, result ∈ items /\ reports_delivery result = true) ->
   fst call = inr tt /\
   log (snd call) = log c ++ [LogSendSummary (deliveries items) (length items)
                                (length (unregistered_lines items)) recipient] /\
   length (unregistered_lines items) + deliveries items = length items) /\
  ((forall result, result ∈ items -> reports_unregistered result = true) ->
   items <> [] ->
   fst call = inl (Exception (py_join newline (unregistered_lines items))) /\
   length (unregistered_lines items) = length items).
Proof.
  cbv zeta. intros Hreply Hresults.
  pose proof (send_run username recipient body quote attachments mentions timestamp c)
    as Hrun.
  cbv zeta in Hrun. rewrite Hrun, Hreply, (send_classify_run _ _ _ _ Hresults).
  clear Hrun. split; [|split; [|split]].
  - intros acc c1 ->. cbn [fst].
    destruct (final_errors_promotes acc (length items)) as [Hyes Hno].
    destruct (final_errors acc (length items)) as [|line rest] eqn:Hfinal.
    + repeat split; try done.
    + repeat split; try done.
  - by intros e c1 ->.
  - intros Hall Hsome.
    destruct (classify_results_benign items (mkAcc [] [] 0) (after_request (send_request username recipient body quote attachments mentions
                                   timestamp) c) Hall)
      as [-> Hlen].
    pose proof (deliveries_pos items Hsome) as Hpos.
    unfold final_errors. cbn.
    destruct (Nat.eqb_spec (length (unregistered_lines items)) (length items)); [lia|].
    done.
  - intros Hall Hne.
    assert (forall result, result ∈ items ->
              reports_delivery result = true \/ reports_unregistered result = true)
      as Hall' by (intros r Hr; right; by apply Hall).
    destruct (classify_results_benign items (mkAcc [] [] 0) (after_request (send_request username recipient body quote attachments mentions
                                   timestamp) c) Hall')
      as [-> Hlen].
    rewrite (deliveries_none items Hall), Nat.add_0_r in Hlen.
    unfold final_errors. cbn. rewrite Hlen, Nat.eqb_refl.
    destruct (unregistered_lines items) as [|line rest] eqn:Hlines.
    + destruct items; [done|discriminate].
    + done.
Qed.

(** A send whose results include a proof-required failure does not return *)
Lemma send_fails_on_proof_required
    (username : string) (recipient : Recipient) (body : string)
    (quote : option Quote) (attachments : option (list Attachment))
    (mentions : option (list Mention)) (timestamp : option Z)
    (c : Client) (resp : json) (items : list json) (result : json) :
  transport_reply (sent c)
    (send_request username recipient body quote attachments mentions timestamp)
  = inr resp ->
  py_get resp "results" (JList []) = inr (JList items) ->
  result ∈ items ->
  reports_proof_required result = true ->
  exists e, fst (send username recipient body quote attachments mentions timestamp c)
            = inl e.
Proof.
  intros Hreply Hresults Hin Hproof.
  pose proof (send_run username recipient body quote attachments mentions timestamp c)
    as Hrun.
  cbv zeta in Hrun. rewrite Hrun, Hreply, (send_classify_run _ _ _ _ Hresults).
  destruct (classify_results _ items _) as [[e|acc] c1] eqn:Hloop; [by exists e|].
  apply classify_results_errors_grow in Hloop as (extra & Hext & Hne).
  assert (extra <> []) as Hextra by eauto.
  cbn in Hext. unfold final_errors. cbn [fst].
  destruct (Nat.eqb _ _); rewrite Hext; destruct extra; try done; eauto.
Qed.

(** C2 as amended.  For a result that reports a proof-required failure with
    a list of options: when the options include ["RECAPTCHA"], no request is
    issued and the line ["RECAPTCHA required."] follows the proof-required
    line, whether or not ["PUSH_CHALLENGE"] is offered too; when they
    include ["PUSH_CHALLENGE"] and not ["RECAPTCHA"], one [submit_challenge]
    request is issued (its error, if it raises one, leaves the call);
    otherwise no request is issued.  In every case the proof-required line
    is appended to the error list, and a send with such a result among its
    results does not return: it raises. *)
Theorem proof_required_remediation
    (acc : SendAcc) (result number : json) (failure : list (string * json))
    (opts : list json) (c : Client) :
  reports_proof_required result = true ->
  result_number result = inr number ->
  py_get_none result "proof_required_failure" = inr (JObj failure) ->
  py_get_none (JObj failure) "options" = inr (JList opts) ->
  let offered option := existsb (is_JStr option) opts in
  let line := proof_required_line number (default JNull (dict_lookup failure "message")) in
  let failed lines := mkAcc (errors acc ++ lines) (unregistered_failures acc)
                            (successful_send_count acc) in
  let run := classify_result acc result c in
  (offered "RECAPTCHA" = true ->
     fst run = inr (failed [line; "RECAPTCHA required."]) /\ sent (snd run) = sent c) /\
  (offered "RECAPTCHA" = false -> offered "PUSH_CHALLENGE" = true ->
     fst run = match transport_reply (sent c) submit_challenge_request with
               | inr _ => inr (failed [line])
               | inl e => inl e
               end /\
     sent (snd run) = sent c ++ [submit_challenge_request]) /\
  (offered "RECAPTCHA" = false -> offered "PUSH_CHALLENGE" = false ->
     fst run = inr (failed [line]) /\ sent (snd run) = sent c) /\
  (forall username recipient body quote attachments mentions timestamp c0 resp items,
     transport_reply (sent c0)
       (send_request username recipient body quote attachments mentions timestamp)
     = inr resp ->
     py_get resp "results" (JList []) = inr (JList items) ->
     result ∈ items ->
     exists e, fst (send username recipient body quote attachments mentions timestamp c0)
               = inl e).
Proof.
  intros Hproof Hnumber Hfailure Hoptions. cbv zeta.
  assert (branch_of result = Some ProofRequiredFailure) as Hbranch.
  { unfold reports_proof_required in Hproof.
    by destruct (branch_of result) as [[]|]. }
  destruct (branch_of_Some _ _ Hbranch) as (kvs & number' & -> & Hnumber' & Hfields).
  rewrite Hnumber in Hnumber'. injection Hnumber' as <-.
  cbn in Hfailure, Hoptions. injection Hfailure as Hfailure. injection Hoptions as Hoptions.
  rewrite (classify_result_run _ _ _ _ Hnumber), Hfields, Hfailure.
  pose proof (on_proof_required_run acc number failure c) as Hrun.
  cbv zeta in Hrun. rewrite Hrun, Hoptions. clear Hrun. cbn [py_contains].
  split; [|split; [|split]].
  - intros ->. cbn. by rewrite <- app_assoc.
  - intros -> ->. cbn. split; [|done].
    by destruct (transport_reply (sent c) submit_challenge_request).
  - intros -> ->. done.
  - intros. eapply send_fails_on_proof_required; eauto.
Qed.

End SendPipeline.

(** ** The claims on a concrete run *)

Section Runs.
#[local] Existing Instance Demo.set_order.
#[local] Existing Instance Demo.format.
#[local] Existing Instance Demo.types.
#[local] Existing Instance Demo.daemon.

(** Three recipients, one delivery and two unregistered: the send returns
    and logs 1/3 with 2 unregistered failures.  Two recipients, both
    unregistered: the send raises both lines. *)
Lemma send_one_of_three_returns :
  (fst (send "+1" (RGroup "g") "one of three" None None None None new_client) = inr tt /\
   log (snd (send "+1" (RGroup "g") "one of three" None None None None new_client))
   = [LogSendSummary 1 3 2 (RGroup "g")]) /\
  fst (send "+1" (RGroup "g") "none of two" None None None None new_client)
  = inl (Exception ("Unregistered failure occurred while sending message to None."
                    +:+ newline +:+
                    "Unregistered failure occurred while sending message to None.")).
Proof.
  split.
  - pose proof (send_raises_iff_errors_remain
                  "+1" (RGroup "g") "one of three" None None None None new_client
                  (JObj [("results", JList (Demo.results_for "one of three"))])
                  (Demo.results_for "one of three") eq_refl eq_refl)
      as (_ & _ & Hsome & _).
    destruct Hsome as (Hret & Hlog & _).
    + intros result Hin. vm_compute in Hin.
      repeat (apply elem_of_cons in Hin as [->|Hin]);
        [by left|by right|by right|by apply elem_of_nil in Hin].
    + exists Demo.delivered. split; [apply list_elem_of_here|reflexivity].
    + split; [exact Hret|exact Hlog].
  - pose proof (send_raises_iff_errors_remain
                  "+1" (RGroup "g") "none of two" None None None None new_client
                  (JObj [("results", JList (Demo.results_for "none of two"))])
                  (Demo.results_for "none of two") eq_refl eq_refl)
      as (_ & _ & _ & Hall).
    destruct Hall as (Hraise & _).
    + intros result Hin. vm_compute in Hin.
      repeat (apply elem_of_cons in Hin as [->|Hin]);
        [reflexivity|reflexivity|by apply elem_of_nil in Hin].
    + discriminate.
    + exact Hraise.
Defined.

(** With both options offered the manual one wins: the result reports a
    proof-required failure whose options include ["PUSH_CHALLENGE"], and the
    only request of the call is the [send] itself. *)
Lemma push_challenge_beside_recaptcha_not_submitted :
  reports_proof_required (Demo.proof_required ["RECAPTCHA"; "PUSH_CHALLENGE"]) = true /\
  py_contains "PUSH_CHALLENGE" (JList [JStr "RECAPTCHA"; JStr "PUSH_CHALLENGE"]) = inr true /\
  sent (snd (send "+1" (RGroup "g") "both" None None None None new_client))
  = [send_request "+1" (RGroup "g") "both" None None None None] /\
  submit_challenge_request
    ∉ sent (snd (send "+1" (RGroup "g") "both" None None None None new_client)).
Proof.
  split; [reflexivity|]. split; [reflexivity|]. split; [reflexivity|].
  intros Hin. vm_compute in Hin.
  apply elem_of_cons in Hin as [Heq|Hin]; [discriminate|by apply elem_of_nil in Hin].
Qed.

(** A proof-required failure offering only ["PUSH_CHALLENGE"]: the
    challenge is submitted. *)
Lemma push_challenge_alone_submitted :
  sent (snd (classify_result (mkAcc [] [] 0) (Demo.proof_required ["PUSH_CHALLENGE"])
                             new_client))
  = sent new_client ++ [submit_challenge_request].
Proof.
  pose proof (proof_required_remediation
                (mkAcc [] [] 0) (Demo.proof_required ["PUSH_CHALLENGE"]) JNull
                [("options", JList [JStr "PUSH_CHALLENGE"]); ("message", JStr "challenge")]
                [JStr "PUSH_CHALLENGE"] new_client
                eq_refl eq_refl eq_refl eq_refl) as (_ & Hpush & _).
  exact (proj2 (Hpush eq_refl eq_refl)).
Defined.

(** An acknowledged subscribe adds the account; the rejected ones do not. *)
Lemma subscribe_acknowledged_adds :
  fst (subscribe "+1" new_client) = inr true /\
  forall y, y ∈ pyset_list (_subscriptions (snd (subscribe "+1" new_client)))
            <-> y = "+1" \/ y ∈ pyset_list (_subscriptions new_client).
Proof.
  exact (proj1 (subscription_set_follows_acknowledgements "+1" new_client)
               (JObj []) eq_refl).
Defined.

(** The daemon rejects ["+000"] with the authorization failure. *)
Lemma subscribe_rejected_emits_authentication_failed :
  exists state,
    let evt := WebsocketConnectionStateChangeEvent state "+000" None in
    fst (subscribe "+000" new_client) = inr false /\
    dispatched (snd (subscribe "+000" new_client)) = dispatched new_client ++ [evt] /\
    handled (snd (subscribe "+000" new_client))
    = handled new_client ++ handler_calls (handlers_for new_client evt) evt /\
    (state = AUTHENTICATION_FAILED
     <-> "[401] Authorization failed!" = "[401] Authorization failed!") /\
    (state = DISCONNECTED
     <-> "[401] Authorization failed!" <> "[401] Authorization failed!").
Proof.
  exact (subscribe_failure_synthesizes_one_event
           "+000" "[401] Authorization failed!" new_client eq_refl).
Defined.

(** In a process whose set iterates the newest name first, a client that
    subscribed ["x"] and then ["y"] resubscribes ["y"] and then ["x"]. *)
Lemma resubscribe_not_in_registration_order :
  let subscribe_to a c :=
    @subscribe SetOrders.front Demo.types Demo.daemon a c in
  let c := snd (subscribe_to "y" (snd (subscribe_to "x" new_client))) in
  fst (subscribe_to "x" new_client) = inr true /\
  fst (subscribe_to "y" (snd (subscribe_to "x" new_client))) = inr true /\
  sent c = [subscribe_request "x"; subscribe_request "y"] /\
  sent (snd (@_resubscribe SetOrders.front Demo.types Demo.daemon c))
  = sent c ++ [subscribe_request "y"; subscribe_request "x"] /\
  sent (snd (@_resubscribe SetOrders.front Demo.types Demo.daemon c))
  <> sent c ++ [subscribe_request "x"; subscribe_request "y"].
Proof.
  cbv zeta. split; [reflexivity|]. split; [reflexivity|]. split; [reflexivity|].
  split; [reflexivity|]. vm_compute. discriminate.
Qed.

(** With the names iterated in insertion order, a reconnect of the client
    subscribed to ["x"] and ["y"] issues the two requests again, in that
    order. *)
Lemma resubscribe_xy_follows_snapshot :
  fst (_resubscribe Demo.subscribed_xy) = inr tt /\
  sent (snd (_resubscribe Demo.subscribed_xy))
  = [subscribe_request "x"; subscribe_request "y";
     subscribe_request "x"; subscribe_request "y"].
Proof.
  pose proof (resubscribe_follows_snapshot Demo.subscribed_xy) as (_ & _ & Hret & _ & _).
  split; [reflexivity|]. exact (Hret eq_refl).
Defined.

(** A disconnect of the same client, with a handler that raises and a
    handler that returns registered for the event: two events are handed to
    the registry, both handlers are called for each, the two exceptions are
    logged, and both names stay subscribed. *)
Lemma disconnect_xy_notifies_both :
  let c := snd (add_event_handler WebsocketConnectionStateChangeEventClass
                  Scenarios.quiet_handler
                  (snd (add_event_handler WebsocketConnectionStateChangeEventClass
                          Scenarios.failing_handler Demo.subscribed_xy))) in
  let evt a := WebsocketConnectionStateChangeEvent
                 SOCKET_DISCONNECTED a (Some "Disconnected from signald") in
  dispatched (snd (_on_disconnect c)) = [evt "x"; evt "y"] /\
  handled (snd (_on_disconnect c))
  = [("failing", evt "x"); ("quiet", evt "x"); ("failing", evt "y"); ("quiet", evt "y")] /\
  log (snd (_on_disconnect c))
  = [LogNotifyingDisconnect;
     LogHandlerException (Exception "handler");
     LogHandlerException (Exception "handler")] /\
  pyset_list (_subscriptions (snd (_on_disconnect c))) = ["x"; "y"].
Proof.
  cbv zeta.
  pose proof (disconnect_notifies_each_account
                (snd (add_event_handler WebsocketConnectionStateChangeEventClass
                        Scenarios.quiet_handler
                        (snd (add_event_handler WebsocketConnectionStateChangeEventClass
                                Scenarios.failing_handler Demo.subscribed_xy)))))
    as (_ & Hd & Hh & Hl & _ & Hs & _).
  split; [exact Hd|]. split; [exact Hh|]. split; [exact Hl|].
  cbv zeta in Hs. rewrite Hs. reflexivity.
Defined.

(** The daemon has no profile for the address: [get_profile] gives [None]. *)
Lemma get_profile_not_available_run :
  fst (get_profile "+1" ("+2" : Address) false new_client) = inr None.
Proof.
  exact (proj1 (get_profile_not_available_is_none "+1" ("+2" : Address) false new_client)
               JNull eq_refl).
Defined.

(** Both arguments given: [ValueError], and the client is untouched. *)
Lemma trust_with_both_arguments_raises :
  exists msg,
    trust "+1" ("+2" : Address) "TRUSTED_VERIFIED" (Some "12345") (Some "qr") new_client
    = (inl (ValueError msg), new_client).
Proof.
  refine (proj1 (trust_validates_before_request
                   "+1" ("+2" : Address) "TRUSTED_VERIFIED" (Some "12345") (Some "qr")
                   new_client) _ _).
  - exists "12345". split; [reflexivity|discriminate].
  - exists "qr". split; [reflexivity|discriminate].
Defined.

(** C8 as worded fails on an empty string.  An empty [safety_number] passed
    beside a QR code: both arguments are passed, and the request goes out
    with the QR code.  An empty [safety_number] passed alone: one argument
    is passed, and [ValueError] is raised before any request. *)
Lemma trust_with_empty_safety_number :
  trust "+1" ("+2" : Address) "TRUSTED_VERIFIED" (Some "") (Some "qr") new_client
  = (inr tt,
     after_request
       (trust_request "+1" ("+2" : Address) "TRUSTED_VERIFIED" "qr_code_data" "qr")
       new_client) /\
  sent (snd (trust "+1" ("+2" : Address) "TRUSTED_VERIFIED" (Some "") (Some "qr")
               new_client))
  = [trust_request "+1" ("+2" : Address) "TRUSTED_VERIFIED" "qr_code_data" "qr"] /\
  trust "+1" ("+2" : Address) "TRUSTED_VERIFIED" (Some "") None new_client
  = (inl (ValueError "safety_number or qr_code_data is required"), new_client).
Proof.
  repeat split.
Qed.

(** A table whose only row has another event identifier *)
Lemma get_of_other_key_is_absent :
  DisappearingMessage.get
    (DisappearingMessage.Serving
       [{| DisappearingMessage.row_room_id := "!room";
           DisappearingMessage.row_mxid := "$one";
           DisappearingMessage.row_expiration_seconds := 60;
           DisappearingMessage.row_expiration_ts := None |}])
    "!room" "$two"
  = inr None.
Proof.
  refine (proj1 (disappearing_message_get_absent "!room" "$two") _ _).
  intros r Hin. apply list_elem_of_singleton in Hin as ->. cbn.
  intros [_ Hmxid]. discriminate.
Defined.

(** Unsubscribing an account that was never subscribed *)
Lemma unsubscribe_untracked_raises_key_error :
  fst (unsubscribe "+1" new_client) = inl (KeyError "+1").
Proof.
  refine (proj1 (unsubscribe_of_untracked_account_raises "+1" new_client (JObj []) _ eq_refl)).
  cbn. apply not_elem_of_nil.
Defined.

End Runs.


(** ** Further properties: the registry *)

Section RegistryProperties.
Context `{PySet} `{PyFormat} `{SignaldTypes} `{SignaldResponses} `{Transport}.

(** X1.  Dispatching an event never raises: every handler registered for
    the class of the event is called once, in registration order, whether or
    not an earlier one raised; each exception is logged; with no entry for
    the class one warning is logged.  The subscription set, the requests and
    the registry are left alone. *)
Theorem dispatch_isolates_handler_exceptions (evt : Event) (c : Client) :
  let c' := snd (_run_event_handler evt c) in
  fst (_run_event_handler evt c) = inr tt /\
  handled c' = handled c ++ map (fun h => (handler_name h, evt)) (handlers_for c evt) /\
  log c' = log c ++
    match _event_handlers c (type_of evt) with
    | None => [LogNoHandlers (type_of evt)]
    | Some handlers => omap (fun h => LogHandlerException <$> handler_run h evt) handlers
    end /\
  dispatched c' = dispatched c ++ [evt] /\
  _subscriptions c' = _subscriptions c /\
  sent c' = sent c /\
  _event_handlers c' = _event_handlers c.
Proof.
  cbv zeta. rewrite run_event_handler_spec. cbn. done.
Qed.

(** X2.  A handler added with [add_event_handler] is called after the
    handlers registered for the class before it, and is not called for an
    event of the other class. *)
Theorem added_handler_is_called_last (cls : EventClass) (h : Handler) (evt : Event)
    (c : Client) :
  let c1 := snd (add_event_handler cls h c) in
  handled (snd (_run_event_handler evt c1)) =
  handled c ++ map (fun h' => (handler_name h', evt)) (handlers_for c evt)
            ++ (if decide (type_of evt = cls) then [(handler_name h, evt)] else []).
Proof.
  cbv zeta. rewrite run_event_handler_spec. cbn.
  unfold handlers_for, handler_calls. cbn.
  destruct (decide (type_of evt = cls)) as [<-|Hne]; cbn.
  - by rewrite map_app.
  - by rewrite app_nil_r.
Qed.

Lemma remove_handler_added (h : Handler) (l : list Handler) :
  exists l', remove_handler h (l ++ [h]) = Some l' /\
             (Forall (fun h' => handler_name h' <> handler_name h) l -> l' = l).
Proof.
  induction l as [|h' l IH]; cbn.
  - rewrite String.eqb_refl. by exists [].
  - destruct (String.eqb_spec (handler_name h') (handler_name h)) as [Heq|Hne].
    + eexists. split; [reflexivity|]. intros Hall. by inversion Hall.
    + destruct IH as (l' & -> & Hl'). cbn. eexists. split; [reflexivity|].
      intros Hall. inversion Hall; subst. by rewrite Hl'.
Qed.

Lemma remove_handler_absent (h : Handler) (l : list Handler) :
  Forall (fun h' => handler_name h' <> handler_name h) l ->
  remove_handler h l = None.
Proof.
  induction 1 as [|h' l Hne _ IH]; [done|]. cbn.
  apply String.eqb_neq in Hne. by rewrite Hne, IH.
Qed.

(** X3.  [remove_event_handler] raises [ValueError] for a handler that is
    not registered for the class, and has by then registered the class with
    the handlers it had (none, if it was unknown): an event of a class that
    was unknown is afterwards dropped without the warning.  Removing a
    handler right after adding it succeeds, and restores the handlers of the
    class when it was not registered before. *)
Theorem remove_event_handler_edge_cases (cls : EventClass) (h : Handler) (c : Client) :
  (Forall (fun h' => handler_name h' <> handler_name h)
          (default [] (_event_handlers c cls)) ->
   exists msg,
     fst (remove_event_handler cls h c) = inl (ValueError msg) /\
     _event_handlers (snd (remove_event_handler cls h c)) cls
     = Some (default [] (_event_handlers c cls)) /\
     forall evt, type_of evt = cls -> _event_handlers c cls = None ->
       log (snd (_run_event_handler evt (snd (remove_event_handler cls h c)))) = log c) /\
  (fst (remove_event_handler cls h (snd (add_event_handler cls h c))) = inr tt) /\
  (Forall (fun h' => handler_name h' <> handler_name h)
          (default [] (_event_handlers c cls)) ->
   _event_handlers (snd (remove_event_handler cls h (snd (add_event_handler cls h c)))) cls
   = Some (default [] (_event_handlers c cls))).
Proof.
  split; [|split].
  - intros Habsent. unfold remove_event_handler.
    rewrite (remove_handler_absent _ _ Habsent).
    eexists. split; [reflexivity|]. split.
    + cbn. by rewrite decide_True.
    + intros evt <- Hnone. rewrite run_event_handler_spec.
      unfold dispatch_log. cbn. rewrite decide_True by done.
      rewrite Hnone. cbn. by rewrite app_nil_r.
  - unfold remove_event_handler, add_event_handler. cbn.
    rewrite decide_True by done. cbn.
    destruct (remove_handler_added h (default [] (_event_handlers c cls)))
      as (l' & -> & _). done.
  - intros Habsent. unfold remove_event_handler, add_event_handler. cbn.
    rewrite decide_True by done. cbn.
    destruct (remove_handler_added h (default [] (_event_handlers c cls)))
      as (l' & -> & Hl'). cbn. rewrite decide_True by done. by rewrite Hl'.
Qed.

End RegistryProperties.

(** ** Further properties: subscriptions *)

Section SubscriptionProperties.
Context `{PySet} `{PyFormat} `{SignaldTypes} `{Transport}.

(** X4.  Subscribing an account and unsubscribing it again, both
    acknowledged, returns [True] twice and leaves the accounts of the set as
    they were before. *)
Theorem subscribe_then_unsubscribe_restores (a : string) (c : Client) (r1 r2 : json) :
  a ∉ pyset_list (_subscriptions c) ->
  transport_reply (sent c) (subscribe_request a) = inr r1 ->
  transport_reply (sent c ++ [subscribe_request a]) (unsubscribe_request a) = inr r2 ->
  let c1 := snd (subscribe a c) in
  let c2 := snd (unsubscribe a c1) in
  fst (subscribe a c) = inr true /\
  fst (unsubscribe a c1) = inr true /\
  (forall y, y ∈ pyset_list (_subscriptions c2) <-> y ∈ pyset_list (_subscriptions c)) /\
  sent c2 = sent c ++ [subscribe_request a; unsubscribe_request a].
Proof.
  intros Hnotin Hsub Hunsub. cbv zeta.
  rewrite (subscribe_acknowledged _ _ _ Hsub). cbn [fst snd].
  rewrite (unsubscribe_acknowledged _ _ r2) by exact Hunsub.
  unfold pyset_mem. cbn [_subscriptions].
  rewrite bool_decide_eq_true_2 by (apply elem_of_pyset_add; by left).
  cbn. split; [done|]. split; [done|]. split.
  - intros y. rewrite elem_of_pyset_discard, elem_of_pyset_add.
    split; [tauto|]. intros Hy. split; [|by right]. by intros ->.
  - by rewrite <- app_assoc.
Qed.

(** X5.  Of two acknowledged [unsubscribe] calls for a subscribed account
    the first returns [True] and the second raises [KeyError]. *)
Theorem second_unsubscribe_raises (a : string) (c : Client) (r1 r2 : json) :
  a ∈ pyset_list (_subscriptions c) ->
  transport_reply (sent c) (unsubscribe_request a) = inr r1 ->
  transport_reply (sent c ++ [unsubscribe_request a]) (unsubscribe_request a) = inr r2 ->
  fst (unsubscribe a c) = inr true /\
  fst (unsubscribe a (snd (unsubscribe a c))) = inl (KeyError a).
Proof.
  intros Hin Hfirst Hsecond.
  rewrite (unsubscribe_acknowledged _ _ _ Hfirst). unfold pyset_mem.
  rewrite bool_decide_eq_true_2 by done. cbn [fst snd]. split; [done|].
  rewrite (unsubscribe_acknowledged _ _ r2) by exact Hsecond.
  unfold pyset_mem. cbn [_subscriptions].
  rewrite bool_decide_eq_false_2; [done|].
  rewrite elem_of_pyset_discard. tauto.
Qed.

Lemma resubscribe_loop_subscriptions (l : list string) (c : Client) :
  (forall a, a ∈ l -> a ∈ pyset_list (_subscriptions c)) ->
  _subscriptions (snd (resubscribe_loop l c)) = _subscriptions c /\
  _event_handlers (snd (resubscribe_loop l c)) = _event_handlers c.
Proof.
  revert c. induction l as [|a l IH]; intros c Hall; [done|].
  assert (a ∈ pyset_list (_subscriptions c)) as Ha by (apply Hall; by left).
  assert (forall b, b ∈ l -> b ∈ pyset_list (_subscriptions c)) as Hrest
    by (intros b Hb; apply Hall; by right).
  rewrite resubscribe_loop_cons.
  destruct (transport_reply (sent c) (subscribe_request a)) as [e|resp] eqn:Hreply.
  - destruct (classified e) eqn:He.
    + destruct e; try discriminate.
      rewrite (subscribe_classified _ _ _ Hreply).
      by destruct (IH (mkClient (_event_handlers c) (_subscriptions c)
                         (sent c ++ [subscribe_request a])
                         (dispatched c ++ [subscribe_failure_event a msg])
                         (handled c ++ handler_calls
                            (handlers_for c (subscribe_failure_event a msg))
                            (subscribe_failure_event a msg))
                         (log c ++ LogSubscribeFailed a (UnexpectedError msg)
                                :: dispatch_log c (subscribe_failure_event a msg)))
                      Hrest) as [-> ->].
    + by rewrite (subscribe_unclassified _ _ _ Hreply He).
  - rewrite (subscribe_acknowledged _ _ _ Hreply), (pyset_add_present _ _ Ha).
    by destruct (IH (mkClient (_event_handlers c) (_subscriptions c)
                       (sent c ++ [subscribe_request a])
                       (dispatched c) (handled c) (log c)) Hrest) as [-> ->].
Qed.

Lemma resubscribe_as_loop (c : Client) :
  exists c0,
    _event_handlers c0 = _event_handlers c /\
    _subscriptions c0 = _subscriptions c /\
    sent c0 = sent c /\
    dispatched c0 = dispatched c /\
    handled c0 = handled c /\
    _resubscribe c = resubscribe_loop (pyset_list (_subscriptions c)) c0.
Proof.
  unfold _resubscribe, pyset_truthy, bind at 1, get_client.
  destruct (pyset_list (_subscriptions c)) as [|a l] eqn:Hl.
  - exists c. done.
  - unfold bind at 1, write_log.
    by exists (mkClient (_event_handlers c) (_subscriptions c) (sent c) (dispatched c)
                        (handled c) (log c ++ [LogResubscribing])).
Qed.

(** X6.  A reconnect never changes the subscription set, whatever the
    daemon answers: an account whose resubscription fails stays subscribed
    and is tried again at the next reconnect. *)
Theorem resubscribe_preserves_subscriptions (c : Client) :
  _subscriptions (snd (_resubscribe c)) = _subscriptions c.
Proof.
  destruct (resubscribe_as_loop c) as (c0 & _ & Hs & _ & _ & _ & ->).
  rewrite <- Hs.
  apply resubscribe_loop_subscriptions. by intros a Ha.
Qed.

Lemma resubscribe_loop_all_rejected (msg : string) (l : list string) (c : Client) :
  (forall history a,
     transport_reply history (subscribe_request a) = inl (UnexpectedError msg)) ->
  resubscribe_loop l c =
  (inr tt,
   mkClient (_event_handlers c) (_subscriptions c)
            (sent c ++ map subscribe_request l)
            (dispatched c ++ map (fun a => subscribe_failure_event a msg) l)
            (handled c ++ flat_map (fun a => handler_calls
                                      (handlers_for c (subscribe_failure_event a msg))
                                      (subscribe_failure_event a msg)) l)
            (log c ++ flat_map (fun a => LogSubscribeFailed a (UnexpectedError msg)
                                           :: dispatch_log c (subscribe_failure_event a msg))
                               l)).
Proof.
  intros Hreject. revert c. induction l as [|a l IH]; intros c.
  - cbn. rewrite !app_nil_r. by destruct c.
  - rewrite resubscribe_loop_cons, (subscribe_classified _ _ _ (Hreject _ a)), IH.
    cbn. by rewrite <- !app_assoc.
Qed.

(** X7.  When the daemon rejects every [subscribe] with the same
    [UnexpectedError], a reconnect returns, issues one request and hands one
    failure event to the registry per subscribed account, in the order of
    the snapshot, and keeps every account subscribed. *)
Theorem resubscribe_all_rejected (msg : string) (c : Client) :
  (forall history a,
     transport_reply history (subscribe_request a) = inl (UnexpectedError msg)) ->
  let c' := snd (_resubscribe c) in
  let accounts := pyset_list (_subscriptions c) in
  fst (_resubscribe c) = inr tt /\
  sent c' = sent c ++ map subscribe_request accounts /\
  dispatched c' = dispatched c ++
    map (fun a => WebsocketConnectionStateChangeEvent
                    (if String.eqb msg "[401] Authorization failed!"
                     then AUTHENTICATION_FAILED else DISCONNECTED) a None) accounts /\
  _subscriptions c' = _subscriptions c.
Proof.
  intros Hreject. cbv zeta.
  destruct (resubscribe_as_loop c) as (c0 & _ & Hs & Hsent & Hd & _ & ->).
  rewrite (resubscribe_loop_all_rejected msg _ _ Hreject). cbn.
  by rewrite Hs, Hsent, Hd.
Qed.

(** X8.  On a disconnect every handler registered for the event is called
    once per subscribed account, account by account in the order of the
    set, the handlers in registration order, whether or not a handler
    raises; with no account subscribed the client is left exactly as it
    was. *)
Theorem disconnect_calls_handlers_per_account (c : Client) :
  let accounts := pyset_list (_subscriptions c) in
  let evt a := WebsocketConnectionStateChangeEvent
                 SOCKET_DISCONNECTED a (Some "Disconnected from signald") in
  handled (snd (_on_disconnect c)) =
  handled c ++ flat_map (fun a => map (fun h => (handler_name h, evt a))
                                      (handlers_for c (evt a))) accounts /\
  (accounts = [] -> _on_disconnect c = (inr tt, c)).
Proof.
  cbv zeta. rewrite on_disconnect_unfold. unfold pyset_truthy.
  destruct (pyset_list (_subscriptions c)) as [|a l] eqn:Hl.
  - cbn. by rewrite app_nil_r.
  - rewrite disconnect_loop_spec. cbn. done.
Qed.

End SubscriptionProperties.

(** ** Further properties: the send pipeline *)

Section SendProperties.
Context `{PySet} `{PyFormat} `{SignaldTypes} `{Transport}.

Lemma app_same_nil {A} (l extra : list A) : l ++ extra = l -> extra = [].
Proof.
  intros Heq. apply (app_inv_head l). by rewrite app_nil_r.
Qed.

(** An iteration that adds no error line took the delivery branch or the
    unregistered branch. *)
Lemma classify_result_clean (acc acc' : SendAcc) (result : json) (c c' : Client) :
  classify_result acc result c = (inr acc', c') ->
  errors acc' = errors acc ->
  reports_delivery result = true \/ reports_unregistered result = true.
Proof.
  destruct (branch_of result) as [branch|] eqn:Hbranch.
  - destruct (branch_of_Some _ _ Hbranch) as (kvs & number & -> & Hnumber & Hfields).
    rewrite (classify_result_run _ _ _ _ Hnumber), Hfields.
    unfold reports_delivery, reports_unregistered. rewrite Hbranch.
    destruct branch.
    + intros [= <- _]. cbn. intros Heq. apply app_same_nil in Heq. discriminate.
    + by right.
    + intros [= <- _]. cbn. intros Heq. apply app_same_nil in Heq. discriminate.
    + intros Hrun Heq.
      apply on_proof_required_adds_error in Hrun as (extra & Hne & Hext).
      rewrite Hext in Heq. by apply app_same_nil in Heq.
    + by left.
  - destruct (classify_result_malformed acc result c Hbranch) as [e ->]. discriminate.
Qed.

Lemma classify_results_clean (items : list json) (acc acc' : SendAcc) (c c' : Client) :
  classify_results acc items c = (inr acc', c') ->
  errors acc' = errors acc ->
  forall result, result ∈ items ->
    reports_delivery result = true \/ reports_unregistered result = true.
Proof.
  revert acc c. induction items as [|r items IH]; intros acc c.
  - intros _ _ result Hin. by apply elem_of_nil in Hin.
  - cbn [classify_results]. unfold bind.
    destruct (classify_result acc r c) as [[e|acc1] c1] eqn:Hstep; [discriminate|].
    intros Hrest Heq.
    destruct (classify_result_errors_grow _ _ _ _ _ Hstep) as (e1 & He1 & _).
    destruct (classify_results_errors_grow _ _ _ _ _ Hrest) as (e2 & He2 & _).
    assert (e1 = [] /\ e2 = []) as [-> ->].
    { rewrite He2, He1, <- app_assoc in Heq. apply app_same_nil in Heq.
      by apply app_eq_nil in Heq as [? ?]. }
    rewrite app_nil_r in He1, He2.
    intros result Hin. apply elem_of_cons in Hin as [->|Hin].
    + by apply (classify_result_clean _ _ _ _ _ Hstep).
    + by apply (IH _ _ Hrest He2).
Qed.

Lemma deliveries_pos_inv (items : list json) :
  0 < deliveries items ->
  exists result, result ∈ items /\ reports_delivery result = true.
Proof.
  unfold deliveries. intros Hpos.
  destruct (filter (fun result => reports_delivery result = true) items)
    as [|r rest] eqn:Hf; [cbn in Hpos; lia|].
  assert (r ∈ filter (fun result => reports_delivery result = true) items) as Hin
    by (rewrite Hf; by left).
  apply list_elem_of_filter in Hin as [Hr Hin]. by exists r.
Qed.

(** X9.  When the response carries a list of results, [send] returns
    exactly when every result is a delivery or an unregistered failure and,
    unless the list is empty, at least one is a delivery; in every other
    case it raises. *)
Theorem send_returns_iff_delivered
    (username : string) (recipient : Recipient) (body : string)
    (quote : option Quote) (attachments : option (list Attachment))
    (mentions : option (list Mention)) (timestamp : option Z)
    (c : Client) (resp : json) (items : list json) :
  transport_reply (sent c)
    (send_request username recipient body quote attachments mentions timestamp)
  = inr resp ->
  py_get resp "results" (JList []) = inr (JList items) ->
  fst (send username recipient body quote attachments mentions timestamp c) = inr tt
  <->
  (forall result, result ∈ items ->
     reports_delivery result = true \/ reports_unregistered result = true) /\
  (items = [] \/ exists result, result ∈ items /\ reports_delivery result = true).
Proof.
  intros Hreply Hresults.
  pose proof (send_run username recipient body quote attachments mentions timestamp c)
    as Hrun.
  cbv zeta in Hrun. rewrite Hrun, Hreply, (send_classify_run _ _ _ _ Hresults).
  clear Hrun. split.
  - destruct (classify_results _ items _) as [[e|acc] c1] eqn:Hloop; [discriminate|].
    cbn [fst]. intros Hfinal.
    assert (final_errors acc (length items) = []) as Hnil
      by (destruct (final_errors acc (length items)); [done|discriminate]).
    assert (errors acc = []) as Herrors.
    { unfold final_errors in Hnil.
      destruct (Nat.eqb _ _); [by apply app_eq_nil in Hnil as [? ?]|done]. }
    assert (forall result, result ∈ items ->
              reports_delivery result = true \/ reports_unregistered result = true)
      as Hall by (by apply (classify_results_clean _ _ _ _ _ Hloop)).
    split; [exact Hall|].
    destruct (classify_results_benign items (mkAcc [] [] 0)
                (after_request (send_request username recipient body quote attachments
                                  mentions timestamp) c) Hall) as [Hacc Hlen].
    rewrite Hacc in Hloop. injection Hloop as <- _.
    unfold final_errors in Hnil. cbn in Hnil.
    destruct (Nat.eqb_spec (length (unregistered_lines items)) (length items))
      as [Heq|Hne].
    + left. rewrite Hnil in Heq. by destruct items.
    + right. apply deliveries_pos_inv. lia.
  - intros [Hall Hsome].
    destruct (classify_results_benign items (mkAcc [] [] 0)
                (after_request (send_request username recipient body quote attachments
                                  mentions timestamp) c) Hall) as [-> Hlen].
    unfold final_errors. cbn.
    destruct Hsome as [->|Hsome]; [done|].
    pose proof (deliveries_pos items Hsome) as Hpos.
    destruct (Nat.eqb_spec (length (unregistered_lines items)) (length items)); [lia|].
    done.
Qed.

Lemma challenges_only_refl (c : Client) : challenges_only 0 c c.
Proof. unfold challenges_only. cbn. by rewrite app_nil_r. Qed.

Lemma challenges_only_trans (k1 k2 : nat) (c c1 c2 : Client) :
  challenges_only k1 c c1 -> challenges_only k2 c1 c2 -> challenges_only (k1 + k2) c c2.
Proof.
  intros (Hh1 & Hs1 & Hd1 & Hc1 & Hr1) (Hh2 & Hs2 & Hd2 & Hc2 & Hr2).
  unfold challenges_only.
  rewrite Hh2, Hs2, Hd2, Hc2, Hr2, Hr1, replicate_add, <- app_assoc. done.
Qed.

Lemma on_proof_required_challenges (acc : SendAcc) (number failure : json) (c : Client) :
  exists k, k <= 1 /\ challenges_only k c (snd (on_proof_required acc number failure c)).
Proof.
  destruct failure as [| | | | |fields];
    try (rewrite on_proof_required_malformed by done; exists 0; split; [lia|];
         apply challenges_only_refl).
  rewrite on_proof_required_run.
  destruct (py_contains "RECAPTCHA" _) as [e|[|]];
    try (exists 0; split; [lia|]; unfold challenges_only; cbn; by rewrite app_nil_r).
  destruct (py_contains "PUSH_CHALLENGE" _) as [e|[|]];
    try (exists 0; split; [lia|]; unfold challenges_only; cbn; by rewrite app_nil_r).
  exists 1. split; [lia|]. unfold challenges_only. cbn. done.
Qed.

Lemma classify_result_challenges (acc : SendAcc) (result : json) (c : Client) :
  exists k,
    k <= (if reports_proof_required result then 1 else 0) /\
    challenges_only k c (snd (classify_result acc result c)).
Proof.
  unfold reports_proof_required.
  destruct (branch_of result) as [branch|] eqn:Hbranch.
  - destruct (branch_of_Some _ _ Hbranch) as (kvs & number & -> & Hnumber & Hfields).
    rewrite (classify_result_run _ _ _ _ Hnumber), Hfields.
    destruct branch;
      try (exists 0; split; [lia|]; apply challenges_only_refl).
    apply on_proof_required_challenges.
  - destruct (classify_result_malformed acc result c Hbranch) as [e ->].
    exists 0. split; [lia|]. apply challenges_only_refl.
Qed.

Lemma classify_results_challenges (items : list json) (acc : SendAcc) (c : Client) :
  exists k,
    k <= proof_required_count items /\
    challenges_only k c (snd (classify_results acc items c)).
Proof.
  revert acc c. induction items as [|r items IH]; intros acc c.
  - exists 0. split; [cbn; lia|]. apply challenges_only_refl.
  - cbn [classify_results]. unfold bind, proof_required_count.
    rewrite filter_cons.
    destruct (classify_result_challenges acc r c) as (k1 & Hk1 & Hc1).
    destruct (classify_result acc r c) as [[e|acc1] c1]; cbn [snd] in *.
    + exists k1. split; [|done].
      destruct (reports_proof_required r); [|lia].
      rewrite decide_True by done. cbn. lia.
    + destruct (IH acc1 c1) as (k2 & Hk2 & Hc2).
      exists (k1 + k2). split; [|by eapply challenges_only_trans].
      unfold proof_required_count in Hk2.
      destruct (reports_proof_required r).
      * rewrite decide_True by done. cbn. lia.
      * rewrite decide_False by done. lia.
Qed.

Lemma send_classify_challenges (recipient : Recipient) (resp : json) (c : Client) :
  exists k,
    challenges_only k c (snd (send_classify recipient resp c)) /\
    forall items,
      py_get resp "results" (JList []) = inr (JList items) ->
      k <= proof_required_count items.
Proof.
  unfold send_classify, bind, lift.
  destruct (py_get resp "results" (JList [])) as [e|results] eqn:Hresults.
  { exists 0. split; [apply challenges_only_refl|]. intros; lia. }
  destruct (py_iter results) as [e|items] eqn:Hiter.
  { exists 0. split; [apply challenges_only_refl|]. intros; lia. }
  destruct (classify_results_challenges items (mkAcc [] [] 0) c) as (k & Hk & Hc).
  exists k. split.
  - destruct (classify_results (mkAcc [] [] 0) items c) as [[e|acc] c1];
      cbn [snd] in *; [done|].
    unfold write_log, ret, raise.
    destruct (final_errors acc (length items)); exact Hc.
  - intros items' [= ->]. cbn in Hiter. by injection Hiter as <-.
Qed.

(** X10.  [send] touches neither the subscription set nor the registry and
    dispatches no event.  Its requests are the [send] itself followed by
    [submit_challenge] requests only, at most one for each result that
    takes the proof-required branch: a result flagged as a network,
    unregistered or identity failure never has a challenge submitted, even
    when it carries a proof-required failure too. *)
Theorem send_only_submits_challenges
    (username : string) (recipient : Recipient) (body : string)
    (quote : option Quote) (attachments : option (list Attachment))
    (mentions : option (list Mention)) (timestamp : option Z) (c : Client) :
  let r := send_request username recipient body quote attachments mentions timestamp in
  let c' := snd (send username recipient body quote attachments mentions timestamp c) in
  _subscriptions c' = _subscriptions c /\
  _event_handlers c' = _event_handlers c /\
  dispatched c' = dispatched c /\
  handled c' = handled c /\
  exists k,
    sent c' = sent c ++ r :: replicate k submit_challenge_request /\
    forall resp items,
      transport_reply (sent c) r = inr resp ->
      py_get resp "results" (JList []) = inr (JList items) ->
      k <= proof_required_count items.
Proof.
  cbv zeta.
  pose proof (send_run username recipient body quote attachments mentions timestamp c)
    as Hrun.
  cbv zeta in Hrun. rewrite Hrun. clear Hrun.
  set (r := send_request username recipient body quote attachments mentions timestamp).
  destruct (transport_reply (sent c) r) as [e|resp] eqn:Hreply.
  - cbn. repeat split; try done. exists 0. split; [done|]. intros; lia.
  - destruct (send_classify_challenges recipient resp (after_request r c))
      as (k & (Hh & Hs & Hd & Hc & Hsent) & Hbound).
    rewrite Hs, Hh, Hd, Hc, Hsent. cbn. repeat split; try done.
    exists k. rewrite <- app_assoc. split; [done|].
    intros resp' items [= <-]. apply Hbound.
Qed.

(** X11.  A response without a ["results"] entry, or with an empty list of
    results, makes [send] return, logging 0/0 with 0 unregistered failures;
    a response that is not a dict makes it raise [AttributeError], and
    results that are [None], a boolean or a number make it raise
    [TypeError]. *)
Theorem send_on_degenerate_response
    (username : string) (recipient : Recipient) (body : string)
    (quote : option Quote) (attachments : option (list Attachment))
    (mentions : option (list Mention)) (timestamp : option Z)
    (c : Client) (resp : json) :
  transport_reply (sent c)
    (send_request username recipient body quote attachments mentions timestamp)
  = inr resp ->
  let call := send username recipient body quote attachments mentions timestamp c in
  (forall kvs, resp = JObj kvs ->
     dict_lookup kvs "results" = None \/ dict_lookup kvs "results" = Some (JList []) ->
     fst call = inr tt /\
     log (snd call) = log c ++ [LogSendSummary 0 0 0 recipient]) /\
  ((forall kvs, resp <> JObj kvs) -> fst call = inl AttributeError) /\
  (forall kvs results, resp = JObj kvs -> dict_lookup kvs "results" = Some results ->
     py_iter results = inl TypeError -> fst call = inl TypeError).
Proof.
  intros Hreply. cbv zeta.
  pose proof (send_run username recipient body quote attachments mentions timestamp c)
    as Hrun.
  cbv zeta in Hrun. rewrite Hrun, Hreply. clear Hrun.
  split; [|split].
  - intros kvs -> Hresults.
    rewrite (send_classify_run _ _ []); [by cbn|].
    cbn. by destruct Hresults as [-> | ->].
  - intros Hnot. unfold send_classify, bind, lift.
    destruct resp; try reflexivity. by destruct (Hnot kvs).
  - intros kvs results -> Hlookup Hiter.
    unfold send_classify, bind, lift. cbn. rewrite Hlookup. cbn. by rewrite Hiter.
Qed.

Lemma unregistered_lines_without_number (items : list json) :
  (forall result, result ∈ items ->
     reports_unregistered result = true /\
     exists kvs, result = JObj kvs /\ dict_lookup kvs "addres" = None) ->
  unregistered_lines items = replicate (length items) (unregistered_failure_line JNull).
Proof.
  induction items as [|r items IH]; intros Hall; [done|].
  rewrite unregistered_lines_cons, IH by (intros x Hx; apply Hall; by right).
  destruct (Hall r (list_elem_of_here _ _)) as (Hunregistered & kvs & -> & Hnone).
  rewrite Hunregistered. unfold result_number. cbn. by rewrite Hnone.
Qed.

(** X12.  The number of a recipient is read from the entry ["addres"] of a
    result, and an ["address"] entry changes nothing of what the loop does
    with a result.  So when the results have no ["addres"] entry and all
    report an unregistered recipient, the message [send] raises is the same
    line once per result, naming [None] for every recipient. *)
Theorem unregistered_lines_name_no_recipient
    (username : string) (recipient : Recipient) (body : string)
    (quote : option Quote) (attachments : option (list Attachment))
    (mentions : option (list Mention)) (timestamp : option Z)
    (c : Client) (resp : json) (items : list json) :
  transport_reply (sent c)
    (send_request username recipient body quote attachments mentions timestamp)
  = inr resp ->
  py_get resp "results" (JList []) = inr (JList items) ->
  items <> [] ->
  (forall result, result ∈ items ->
     reports_unregistered result = true /\
     exists kvs, result = JObj kvs /\ dict_lookup kvs "addres" = None) ->
  fst (send username recipient body quote attachments mentions timestamp c)
  = inl (Exception (py_join newline
                      (replicate (length items)
                         ("Unregistered failure occurred while sending message to "
                          +:+ py_str JNull +:+ ".")))) /\
  forall acc kvs address c',
    classify_result acc (JObj (("address", address) :: kvs)) c'
    = classify_result acc (JObj kvs) c'.
Proof.
  intros Hreply Hresults Hne Hall. split; [|reflexivity].
  pose proof (send_run username recipient body quote attachments mentions timestamp c)
    as Hrun.
  cbv zeta in Hrun. rewrite Hrun, Hreply, (send_classify_run _ _ _ _ Hresults).
  clear Hrun.
  assert (forall result, result ∈ items ->
            reports_delivery result = true \/ reports_unregistered result = true)
    as Hbenign by (intros r Hr; right; by apply Hall).
  assert (forall result, result ∈ items -> reports_unregistered result = true)
    as Hunregistered by (intros r Hr; by apply Hall).
  destruct (classify_results_benign items (mkAcc [] [] 0)
              (after_request (send_request username recipient body quote attachments
                                mentions timestamp) c) Hbenign) as [-> Hlen].
  rewrite (deliveries_none items Hunregistered), Nat.add_0_r in Hlen.
  unfold final_errors. cbn [errors unregistered_failures fst app].
  rewrite Hlen, Nat.eqb_refl.
  rewrite (unregistered_lines_without_number items Hall).
  fold (unregistered_failure_line JNull).
  destruct items as [|r items]; [done|]. reflexivity.
Qed.

End SendProperties.

(** ** Further properties: the command layer *)

Section CommandProperties.
Context `{PySet} `{PyFormat} `{SignaldTypes} `{SignaldResponses} `{Transport}.

(** [react] names its recipient [recipientAddress] or
    [recipientGroupId], [remote_delete] names it [address] or [group]; each
    issues one request, with the one recipient entry last. *)
Theorem recipient_field_names (username : string) (recipient : Recipient)
    (reaction : Reaction) (timestamp : Z) (c : Client) :
  let react_entry :=
    match recipient with
    | RAddress a => ("recipientAddress", Address_serialize a)
    | RGroup g => ("recipientGroupId", JStr g)
    end in
  let delete_entry :=
    match recipient with
    | RAddress a => ("address", Address_serialize a)
    | RGroup g => ("group", JStr g)
    end in
  sent (snd (react username recipient reaction c)) =
    sent c ++ [{| command := "react"; expects := V1;
                  params := [("username", JStr username);
                             ("reaction", Reaction_serialize reaction);
                             react_entry] |}] /\
  sent (snd (remote_delete username recipient timestamp c)) =
    sent c ++ [{| command := "remote_delete"; expects := V1;
                  params := [("account", JStr username);
                             ("timestamp", JNum timestamp);
                             delete_entry] |}].
Proof.
  cbv zeta. unfold react, remote_delete, bind, request_v1, do_request, ret.
  split.
  - destruct (transport_reply (sent c) _); by destruct recipient.
  - destruct (transport_reply (sent c) _); by destruct recipient.
Qed.

(** [send_receipt] does nothing at all unless [read] is set: the
    client is left as it was and no request is issued; with [read] set it
    issues one [mark_read] request. *)
Theorem send_receipt_only_when_read (username : string) (sender : Address)
    (timestamps : list Z) (when : option Z) (c : Client) :
  send_receipt username sender timestamps when false c = (inr tt, c) /\
  sent (snd (send_receipt username sender timestamps when true c)) =
    sent c ++ [{| command := "mark_read"; expects := V1;
                  params := [("account", JStr username);
                             ("timestamps", JList (map JNum timestamps));
                             ("when", opt_json JNum when);
                             ("to", Address_serialize sender)] |}].
Proof.
  split; [reflexivity|].
  unfold send_receipt, bind, request_v1, do_request, ret. cbn.
  by destruct (transport_reply (sent c) _).
Qed.

(** X13.  The parameters of [update_group] hold the group and, of the
    optional arguments, exactly those that were given: a title or an avatar
    that is not [None] (an empty string is sent), a list of members that is
    neither [None] nor empty.  No parameter is sent as [None]. *)
Theorem update_params_are_sparse (group_id : GroupID) (title avatar_path : option string)
    (add_members remove_members : option (list Address)) :
  let sent_params :=
    update_params group_id title avatar_path add_members remove_members in
  dict_lookup sent_params "groupID" = Some (JStr group_id) /\
  dict_lookup sent_params "title" = option_map JStr title /\
  dict_lookup sent_params "avatar" = option_map JStr avatar_path /\
  (dict_lookup sent_params "addMembers" = None
   <-> add_members = None \/ add_members = Some []) /\
  (dict_lookup sent_params "removeMembers" = None
   <-> remove_members = None \/ remove_members = Some []) /\
  (forall entry, entry ∈ sent_params -> snd entry <> JNull).
Proof.
  cbv zeta. unfold update_params.
  destruct title as [t|], avatar_path as [p|],
           add_members as [[|a adds]|], remove_members as [[|r removes]|]; cbn;
    (repeat split; try done; try (intros [?|?]; discriminate); eauto;
     try (intros entry Hin;
          repeat (apply elem_of_cons in Hin as [->|Hin]; [discriminate|]);
          by apply elem_of_nil in Hin)).
Qed.

Lemma key_in_dict (kvs : list (string * json)) (k : string) :
  existsb (fun kv => String.eqb (fst kv) k) kvs
  = match dict_lookup kvs k with Some _ => true | None => false end.
Proof.
  induction kvs as [|[k' v] kvs IH]; [done|]. cbn.
  by destruct (String.eqb k' k).
Qed.

Lemma update_group_run (username : string) (group_id : GroupID)
    (title avatar_path : option string)
    (add_members remove_members : option (list Address))
    (c : Client) (kvs : list (string * json)) :
  transport_reply (sent c)
    {| command := "update_group"; expects := V1;
       params := [("account", JStr username)]
                 ++ update_params group_id title avatar_path add_members remove_members |}
  = inr (JObj kvs) ->
  fst (update_group username group_id title avatar_path add_members remove_members c) =
  match dict_lookup kvs "v1", dict_lookup kvs "v2" with
  | Some v1, _ => match Group_deserialize v1 with
                  | inr group => inr (Some (inl group))
                  | inl e => inl e
                  end
  | None, Some v2 => match GroupV2_deserialize v2 with
                     | inr group => inr (Some (inr group))
                     | inl e => inl e
                     end
  | None, None => inr None
  end.
Proof.
  intros Hreply. unfold update_group, bind, request_v1, do_request, lift, ret.
  rewrite Hreply. cbn [py_contains py_index]. rewrite !key_in_dict.
  destruct (dict_lookup kvs "v1") as [v1|].
  - by destruct (Group_deserialize v1).
  - destruct (dict_lookup kvs "v2") as [v2|]; [|done].
    by destruct (GroupV2_deserialize v2).
Qed.

(** X14.  [update_group] reads its result off the response: a ["v1"] entry
    gives the legacy group, also when a ["v2"] entry is there too; without
    ["v1"], a ["v2"] entry gives the v2 group; with neither the call returns
    [None] and deserializes nothing. *)
Theorem update_group_resolves_response (username : string) (group_id : GroupID)
    (title avatar_path : option string)
    (add_members remove_members : option (list Address))
    (c : Client) (kvs : list (string * json)) :
  transport_reply (sent c)
    {| command := "update_group"; expects := V1;
       params := [("account", JStr username)]
                 ++ update_params group_id title avatar_path add_members remove_members |}
  = inr (JObj kvs) ->
  let outcome :=
    fst (update_group username group_id title avatar_path add_members remove_members c) in
  (forall v1 group, dict_lookup kvs "v1" = Some v1 -> Group_deserialize v1 = inr group ->
     outcome = inr (Some (inl group))) /\
  (forall v2 group, dict_lookup kvs "v1" = None -> dict_lookup kvs "v2" = Some v2 ->
     GroupV2_deserialize v2 = inr group -> outcome = inr (Some (inr group))) /\
  (outcome = inr None <-> dict_lookup kvs "v1" = None /\ dict_lookup kvs "v2" = None).
Proof.
  intros Hreply. cbv zeta. rewrite (update_group_run _ _ _ _ _ _ _ _ Hreply).
  split; [|split].
  - by intros v1 group -> ->.
  - by intros v2 group -> -> ->.
  - destruct (dict_lookup kvs "v1") as [v1|].
    + destruct (Group_deserialize v1); split; try discriminate; by intros [? ?].
    + destruct (dict_lookup kvs "v2") as [v2|]; [|done].
      destruct (GroupV2_deserialize v2); split; try discriminate; by intros [? ?].
Qed.

Lemma deserialize_all_length {T} (f : json -> Exn + T) (items : list json) (vs : list T) :
  deserialize_all f items = inr vs -> length vs = length items.
Proof.
  revert vs. induction items as [|x items IH]; intros vs; cbn.
  - by intros [= <-].
  - destruct (f x) as [e|v]; [discriminate|].
    destruct (deserialize_all f items) as [e|vs']; [discriminate|].
    intros [= <-]. cbn. by rewrite (IH vs').
Qed.

(** X15.  When [list_groups] returns, its result is the legacy groups of
    the response followed by the v2 groups, one group per entry of the
    response, each list in the order of the response. *)
Theorem list_groups_legacy_first (username : string) (c : Client)
    (resp : json) (legacy_items v2_items : list json) (result : list (Group + GroupV2)) :
  transport_reply (sent c)
    {| command := "list_groups"; expects := V1; params := [("account", JStr username)] |}
  = inr resp ->
  py_get resp "legacyGroups" (JList []) = inr (JList legacy_items) ->
  py_get resp "groups" (JList []) = inr (JList v2_items) ->
  fst (list_groups username c) = inr result ->
  exists legacy v2,
    deserialize_all Group_deserialize legacy_items = inr legacy /\
    deserialize_all GroupV2_deserialize v2_items = inr v2 /\
    result = map inl legacy ++ map inr v2 /\
    length result = length legacy_items + length v2_items.
Proof.
  intros Hreply Hlegacy Hv2.
  unfold list_groups, bind, request_v1, do_request, lift, ret.
  rewrite Hreply, Hlegacy. cbn [py_iter].
  destruct (deserialize_all Group_deserialize legacy_items) as [e|legacy] eqn:Hl;
    [discriminate|].
  rewrite Hv2. cbn [py_iter].
  destruct (deserialize_all GroupV2_deserialize v2_items) as [e|v2] eqn:Hr;
    [discriminate|].
  cbn. intros [= <-]. exists legacy, v2. repeat split.
  rewrite length_app, !length_map.
  by rewrite (deserialize_all_length _ _ _ Hl), (deserialize_all_length _ _ _ Hr).
Qed.

(** X16.  Against a daemon that answers every request with an empty
    object, [list_accounts], [get_linked_devices] and [list_groups] return
    the empty list and [get_group] and [update_group] return [None], while
    [list_contacts] raises [KeyError] for ["profiles"] and [register] for
    ["account_id"]. *)
Theorem commands_on_empty_response (c : Client) :
  (forall history r, transport_reply history r = inr (JObj [])) ->
  fst (list_accounts c) = inr [] /\
  (forall username, fst (get_linked_devices username c) = inr []) /\
  (forall username, fst (list_groups username c) = inr []) /\
  (forall username group_id revision,
     fst (get_group username group_id revision c) = inr None) /\
  (forall username group_id title avatar_path add_members remove_members,
     fst (update_group username group_id title avatar_path add_members remove_members c)
     = inr None) /\
  (forall username, fst (list_contacts username c) = inl (KeyError "profiles")) /\
  (forall phone voice captcha,
     fst (register phone voice captcha c) = inl (KeyError "account_id")).
Proof.
  intros Hempty.
  unfold list_accounts, get_linked_devices, list_groups, get_group, update_group,
    list_contacts, register, bind, request_v1, do_request, lift, ret.
  repeat split; intros; rewrite Hempty; reflexivity.
Qed.

(** X17.  On a response that is a dict, [get_group] returns [None] exactly
    when the response has no ["id"] entry; the response is then not
    deserialized. *)
Theorem get_group_absent_iff_no_id (username : string) (group_id : GroupID)
    (revision : Z) (c : Client) (kvs : list (string * json)) :
  transport_reply (sent c)
    {| command := "get_group"; expects := V1;
       params := [("account", JStr username); ("groupID", JStr group_id);
                  ("revision", JNum revision)] |}
  = inr (JObj kvs) ->
  fst (get_group username group_id revision c) = inr None
  <-> dict_lookup kvs "id" = None.
Proof.
  intros Hreply. unfold get_group, bind, request_v1, do_request, lift, ret.
  rewrite Hreply. cbn [py_contains]. rewrite key_in_dict.
  destruct (dict_lookup kvs "id") as [v|]; [|done].
  destruct (GroupV2_deserialize (JObj kvs)); split; discriminate.
Qed.

(** X18.  When the transport raises the error [e] for every request, each
    of the plain commands raises [e] as it is; none of them catches it. *)
Theorem plain_commands_propagate_errors (e : Exn) (c : Client) :
  (forall history r, transport_reply history r = inl e) ->
  (forall phone voice captcha, fst (register phone voice captcha c) = inl e) /\
  (forall username code, fst (verify username code c) = inl e) /\
  fst (start_link c) = inl e /\
  (forall session_id device_name overwrite,
     fst (finish_link session_id device_name overwrite c) = inl e) /\
  (forall username recipient reaction, fst (react username recipient reaction c) = inl e) /\
  (forall username recipient timestamp,
     fst (remote_delete username recipient timestamp c) = inl e) /\
  (forall username recipient body quote attachments mentions timestamp,
     fst (send username recipient body quote attachments mentions timestamp c) = inl e) /\
  (forall username sender timestamps when,
     fst (send_receipt username sender timestamps when true c) = inl e) /\
  fst (list_accounts c) = inl e /\
  (forall username server, fst (delete_account username server c) = inl e) /\
  (forall username, fst (get_linked_devices username c) = inl e) /\
  (forall username device_id, fst (remove_linked_device username device_id c) = inl e) /\
  (forall username, fst (list_contacts username c) = inl e) /\
  (forall username, fst (list_groups username c) = inl e) /\
  (forall username group_id title avatar_path add_members remove_members,
     fst (update_group username group_id title avatar_path add_members remove_members c)
     = inl e) /\
  (forall username group_id, fst (accept_invitation username group_id c) = inl e) /\
  (forall username group_id revision,
     fst (get_group username group_id revision c) = inl e) /\
  (forall username address, fst (get_identities username address c) = inl e) /\
  (forall username name avatar_path,
     fst (set_profile username name avatar_path c) = inl e) /\
  (forall username recipient trust_level safety_number,
     safety_number <> "" ->
     fst (trust username recipient trust_level (Some safety_number) None c) = inl e).
Proof.
  intros Hfail.
  unfold register, verify, start_link, finish_link, react, remote_delete, send,
    send_receipt, list_accounts, delete_account, get_linked_devices,
    remove_linked_device, list_contacts, list_groups, update_group, accept_invitation,
    get_group, get_identities, set_profile, trust, bind, request_v1, do_request, lift, ret.
  repeat split; intros; cbn; try (rewrite Hfail; reflexivity).
  unfold str_truthy. cbn.
  destruct (String.eqb_spec safety_number ""); [done|]. cbn. by rewrite Hfail.
Qed.

(** X19.  [_parse_message] needs the entries ["type"] and ["data"]; a type
    that is a string other than ["message"] raises [KeyError] for it before
    anything is deserialized or dispatched, and a message that deserializes
    is handed to the registry as one event. *)
Theorem parse_message_dispatches_messages (kvs : list (string * json)) (c : Client) :
  (dict_lookup kvs "type" = None -> _parse_message (JObj kvs) c = (inl (KeyError "type"), c)) /\
  (forall event_type, dict_lookup kvs "type" = Some event_type ->
     dict_lookup kvs "data" = None ->
     _parse_message (JObj kvs) c = (inl (KeyError "data"), c)) /\
  (forall event_type event_data,
     dict_lookup kvs "type" = Some (JStr event_type) ->
     dict_lookup kvs "data" = Some event_data ->
     event_type <> "message" ->
     _parse_message (JObj kvs) c = (inl (KeyError event_type), c)) /\
  (forall event_data message,
     dict_lookup kvs "type" = Some (JStr "message") ->
     dict_lookup kvs "data" = Some event_data ->
     Message_deserialize event_data = inr message ->
     fst (_parse_message (JObj kvs) c) = inr tt /\
     dispatched (snd (_parse_message (JObj kvs) c)) = dispatched c ++ [MessageEvent message]).
Proof.
  unfold _parse_message, bind, lift. cbn [py_index].
  split; [|split; [|split]].
  - by intros ->.
  - by intros event_type -> ->.
  - intros event_type event_data -> -> Hne. cbn.
    apply String.eqb_neq in Hne. by rewrite Hne.
  - intros event_data message -> -> Hmessage. cbn -[_run_event_handler].
    rewrite Hmessage, run_event_handler_spec. done.
Qed.

End CommandProperties.

(** ** Further properties: the repository *)

Module Repository.
Import DisappearingMessage.

Lemma key_matches_spec (room event : string) (r : Row) :
  key_matches room event r = true <-> row_room_id r = room /\ row_mxid r = event.
Proof.
  unfold key_matches. rewrite andb_true_iff, !String.eqb_eq. done.
Qed.

Lemma get_serving (table : list Row) (room event : string) :
  get (Serving table) room event = inr (of_row <$> find (key_matches room event) table).
Proof.
  unfold get, get_body, fetchrow. by destruct (find _ table).
Qed.

Lemma find_stored (table : list Row) (room event : string) :
  stored table room event ->
  exists r, find (key_matches room event) table = Some r /\
            row_room_id r = room /\ row_mxid r = event.
Proof.
  intros (r & Hin & Hroom & Hevent).
  destruct (find (key_matches room event) table) as [r'|] eqn:Hfind.
  - exists r'. split; [done|]. apply find_some in Hfind as [_ Hkey].
    by apply key_matches_spec.
  - apply list_elem_of_In in Hin.
    pose proof (find_none _ _ Hfind r Hin) as Hno.
    assert (key_matches room event r = true) as Hyes by (by apply key_matches_spec).
    congruence.
Qed.

Lemma find_not_stored (table : list Row) (room event : string) :
  ~ stored table room event -> find (key_matches room event) table = None.
Proof.
  intros Hnot. destruct (find (key_matches room event) table) as [r|] eqn:Hfind; [|done].
  apply find_some in Hfind as [Hin Hkey]. apply key_matches_spec in Hkey as [? ?].
  destruct Hnot. exists r. by rewrite list_elem_of_In.
Qed.

(** X20.  [get] returns the message of a stored key: when a row has the
    room and event identifiers asked for, the result is a message with
    these identifiers, and [get_all] lists it. *)
Theorem get_finds_stored_message (table : list Row) (room event : string) :
  stored table room event ->
  exists message all,
    get (Serving table) room event = inr (Some message) /\
    room_id message = room /\ mxid message = event /\
    get_all (Serving table) = inr all /\ message ∈ all.
Proof.
  intros Hstored.
  destruct (find_stored _ _ _ Hstored) as (r & Hfind & Hroom & Hevent).
  exists (of_row r), (map of_row table).
  rewrite get_serving, Hfind. repeat split; try done.
  - unfold get_all, fetch_all. clear. induction table as [|x table IH]; [done|].
    cbn. by rewrite IH.
  - apply find_some in Hfind as [Hin _]. apply list_elem_of_In in Hin.
    by apply list_elem_of_fmap_2.
Qed.

(** X21.  [update] never raises.  On a failing database it prints the
    error and changes nothing, and so it does when an argument does not fit
    its column (an expiration outside the 64-bit range, an identifier with
    a NUL character).  When the arguments fit: on a stored key, [get]
    afterwards returns the message that was written and nothing is printed;
    on a key that is not stored nothing changes. *)
Theorem update_overwrites_or_reports (db : Database) (message : t) :
  fst (fst (update db message)) = inr tt /\
  (forall e, db = Failing e -> update db message = (inr tt, db, [e])) /\
  (forall table, db = Serving table ->
     storable message = false ->
     exists e, update db message = (inr tt, db, [e])) /\
  (forall table, db = Serving table ->
     storable message = true ->
     stored table (room_id message) (mxid message) ->
     get (snd (fst (update db message))) (room_id message) (mxid message)
     = inr (Some message) /\
     snd (update db message) = []) /\
  (forall table, db = Serving table ->
     storable message = true ->
     ~ stored table (room_id message) (mxid message) ->
     update db message = (inr tt, db, [])).
Proof.
  split; [|split; [|split; [|split]]].
  - unfold update. by destruct (execute_update db message).
  - by intros e ->.
  - intros table -> Hfit. unfold update, execute_update. rewrite Hfit. eauto.
  - intros table -> Hfit Hstored. unfold update, execute_update. rewrite Hfit.
    cbn [fst snd]. split; [|done].
    rewrite get_serving.
    destruct (find_stored _ _ _ Hstored) as (r0 & Hfind & _). clear Hstored.
    revert r0 Hfind. induction table as [|r table IH]; intros r0; [discriminate|].
    cbn. destruct (key_matches (room_id message) (mxid message) r) eqn:Hkey.
    + intros _. apply key_matches_spec in Hkey as [Hroom Hevent].
      match goal with
      | |- context [if key_matches ?a ?b ?r' then _ else _] =>
          assert (key_matches a b r' = true) as -> by (by apply key_matches_spec)
      end.
      cbn. unfold of_row. cbn. rewrite Hroom, Hevent. by destruct message.
    + rewrite Hkey. apply IH.
  - intros table -> Hfit Hnot. unfold update, execute_update. rewrite Hfit.
    do 3 f_equal.
    induction table as [|r table IH]; [done|]. cbn.
    destruct (key_matches (room_id message) (mxid message) r) eqn:Hkey.
    + destruct Hnot. apply key_matches_spec in Hkey as [? ?].
      exists r. split; [by left|done].
    + rewrite IH; [done|]. intros (r' & Hin & Hr'). apply Hnot.
      exists r'. split; [by right|done].
Qed.





(** X24.  [insert] of a message whose key is not stored: when the
    arguments fit their columns (expirations in the 64-bit range,
    identifiers without a NUL character) it returns and [get] of the key
    gives the message afterwards; when they do not, it raises and the
    database is as it was.  Either way [get] of any other key gives what it
    gave before. *)
Theorem insert_then_get (table : list Row) (message : t) :
  ~ stored table (room_id message) (mxid message) ->
  let db' := snd (insert (Serving table) message) in
  (storable message = true ->
     fst (insert (Serving table) message) = inr tt /\
     get db' (room_id message) (mxid message) = inr (Some message)) /\
  (storable message = false ->
     exists e, insert (Serving table) message = (inl e, Serving table)) /\
  (forall room event, (room, event) <> (room_id message, mxid message) ->
     get db' room event = get (Serving table) room event).
Proof.
  intros Hfresh. cbv zeta. unfold insert, execute_insert.
  rewrite (find_not_stored _ _ _ Hfresh).
  destruct (storable message); cbn [fst snd].
  2: { split; [discriminate|]. split; [eauto|done]. }
  split; [|split; [discriminate|]].
  - intros _. split; [done|]. rewrite get_serving.
    assert (forall l, find (key_matches (room_id message) (mxid message)) l = None ->
              find (key_matches (room_id message) (mxid message)) (l ++ [to_row message])
              = Some (to_row message)) as Hend.
    { induction l as [|r l IH]; cbn.
      - intros _. unfold key_matches. cbn. by rewrite !String.eqb_refl.
      - destruct (key_matches (room_id message) (mxid message) r); [discriminate|].
        exact IH. }
    rewrite (Hend _ (find_not_stored _ _ _ Hfresh)). cbn. by destruct message.
  - intros room event Hother. rewrite !get_serving. f_equal. f_equal.
    induction table as [|r table IH]; cbn.
    + destruct (key_matches room event (to_row message)) eqn:Hkey; [|done].
      apply key_matches_spec in Hkey as [<- <-]. done.
    + destruct (key_matches room event r); [done|].
      apply IH. intros (r' & Hin & Hr'). apply Hfresh.
      exists r'. split; [by right|done].
Qed.

(** X25.  [update] is idempotent: writing the same message a second time
    leaves the database as the first write left it. *)
Theorem update_is_idempotent (db : Database) (message : t) :
  snd (fst (update (snd (fst (update db message))) message))
  = snd (fst (update db message)).
Proof.
  destruct db as [table|e]; [|done].
  unfold update, execute_update.
  destruct (storable message); cbn [fst snd]; [|done].
  f_equal.
  rewrite map_map. apply map_ext. intros r.
  destruct (key_matches (room_id message) (mxid message) r) eqn:Hkey; [|by rewrite Hkey].
  match goal with
  | |- context [if key_matches ?a ?b ?r' then _ else _] =>
      assert (key_matches a b r' = true) as ->
        by (apply key_matches_spec; by apply key_matches_spec in Hkey)
  end.
  done.
Qed.

End Repository.

(** ** The further properties on concrete runs *)

Section DemoRuns.
#[local] Existing Instance Demo.set_order.
#[local] Existing Instance Demo.format.
#[local] Existing Instance Demo.types.
#[local] Existing Instance Scenarios.responses.
#[local] Existing Instance Demo.daemon.

(** Removing a handler that was never registered *)
Lemma remove_unregistered_handler_raises :
  exists msg,
    fst (remove_event_handler MessageClass Scenarios.quiet_handler new_client)
    = inl (ValueError msg) /\
    _event_handlers
      (snd (remove_event_handler MessageClass Scenarios.quiet_handler new_client))
      MessageClass
    = Some [] /\
    forall evt, type_of evt = MessageClass ->
      _event_handlers new_client MessageClass = None ->
      log (snd (_run_event_handler evt
                  (snd (remove_event_handler MessageClass Scenarios.quiet_handler
                          new_client))))
      = log new_client.
Proof.
  exact (proj1 (remove_event_handler_edge_cases MessageClass Scenarios.quiet_handler
                  new_client) (Forall_nil_2 _)).
Defined.

(** Subscribing and unsubscribing ["+1"] *)
Lemma subscribe_then_unsubscribe_run :
  fst (unsubscribe "+1" (snd (subscribe "+1" new_client))) = inr true /\
  sent (snd (unsubscribe "+1" (snd (subscribe "+1" new_client))))
  = [subscribe_request "+1"; unsubscribe_request "+1"].
Proof.
  pose proof (subscribe_then_unsubscribe_restores "+1" new_client (JObj []) (JObj []))
    as Hrun.
  destruct Hrun as (_ & Hun & _ & Hsent); [apply not_elem_of_nil|reflexivity|reflexivity|].
  split; [exact Hun|exact Hsent].
Defined.

(** Unsubscribing ["x"] twice *)
Lemma unsubscribe_x_twice :
  fst (unsubscribe "x" Demo.subscribed_xy) = inr true /\
  fst (unsubscribe "x" (snd (unsubscribe "x" Demo.subscribed_xy))) = inl (KeyError "x").
Proof.
  refine (second_unsubscribe_raises "x" Demo.subscribed_xy (JObj []) (JObj []) _
            eq_refl eq_refl).
  apply list_elem_of_here.
Defined.

(** One delivery: the send returns. *)
Lemma send_of_one_delivery_returns :
  fst (send "+1" (RGroup "g") "ok" None None None None new_client) = inr tt.
Proof.
  refine (proj2 (send_returns_iff_delivered
                   "+1" (RGroup "g") "ok" None None None None new_client
                   (JObj [("results", JList [Demo.delivered])]) [Demo.delivered]
                   eq_refl eq_refl) _).
  split.
  - intros result Hin. apply list_elem_of_singleton in Hin as ->. by left.
  - right. exists Demo.delivered. split; [apply list_elem_of_here|reflexivity].
Defined.

(** An event type the client does not know *)
Lemma parse_unknown_event_type_raises :
  _parse_message (JObj [("type", JStr "receipt"); ("data", JObj [])]) new_client
  = (inl (KeyError "receipt"), new_client).
Proof.
  refine (proj1 (proj2 (proj2 (parse_message_dispatches_messages
                                 [("type", JStr "receipt"); ("data", JObj [])]
                                 new_client)))
                "receipt" (JObj []) eq_refl eq_refl _).
  discriminate.
Defined.

(** Two unregistered recipients: the same line twice. *)
Lemma send_to_two_unregistered_names_none :
  fst (send "+1" (RGroup "g") "none of two" None None None None new_client)
  = inl (Exception (py_join newline
                      (replicate 2
                         ("Unregistered failure occurred while sending message to "
                          +:+ py_str JNull +:+ ".")))).
Proof.
  refine (proj1 (unregistered_lines_name_no_recipient
                   "+1" (RGroup "g") "none of two" None None None None new_client
                   (JObj [("results", JList [Demo.unregistered; Demo.unregistered])])
                   [Demo.unregistered; Demo.unregistered] eq_refl eq_refl _ _)).
  - discriminate.
  - intros result Hin.
    assert (result = Demo.unregistered) as ->.
    { repeat (apply elem_of_cons in Hin as [->|Hin]; [done|]).
      by apply elem_of_nil in Hin. }
    split; [reflexivity|]. by exists [("unregisteredFailure", JBool true)].
Defined.

End DemoRuns.

Section RejectingRuns.
#[local] Existing Instance Demo.set_order.
#[local] Existing Instance Demo.format.
#[local] Existing Instance Demo.types.
#[local] Existing Instance Scenarios.rejecting.

(** A reconnect to a daemon that rejects both accounts *)
Lemma resubscribe_xy_all_rejected :
  fst (_resubscribe Demo.subscribed_xy) = inr tt /\
  dispatched (snd (_resubscribe Demo.subscribed_xy))
  = [WebsocketConnectionStateChangeEvent AUTHENTICATION_FAILED "x" None;
     WebsocketConnectionStateChangeEvent AUTHENTICATION_FAILED "y" None] /\
  pyset_list (_subscriptions (snd (_resubscribe Demo.subscribed_xy))) = ["x"; "y"].
Proof.
  pose proof (resubscribe_all_rejected "[401] Authorization failed!" Demo.subscribed_xy
                (fun _ _ => eq_refl)) as (Hret & _ & Hd & Hs).
  split; [exact Hret|]. split; [exact Hd|]. cbv zeta in Hs. by rewrite Hs.
Defined.

End RejectingRuns.

Section SilentRuns.
#[local] Existing Instance Demo.set_order.
#[local] Existing Instance Demo.format.
#[local] Existing Instance Demo.types.
#[local] Existing Instance Scenarios.responses.
#[local] Existing Instance Scenarios.silent.

(** A send answered with an empty object *)
Lemma send_without_results_returns :
  fst (send "+1" (RGroup "g") "hello" None None None None new_client) = inr tt /\
  log (snd (send "+1" (RGroup "g") "hello" None None None None new_client))
  = [LogSendSummary 0 0 0 (RGroup "g")].
Proof.
  exact (proj1 (send_on_degenerate_response
                  "+1" (RGroup "g") "hello" None None None None new_client (JObj [])
                  eq_refl) [] eq_refl (or_introl eq_refl)).
Defined.

Lemma list_contacts_of_empty_response_raises :
  fst (list_contacts "+1" new_client) = inl (KeyError "profiles").
Proof.
  pose proof (commands_on_empty_response new_client (fun _ _ => eq_refl))
    as (_ & _ & _ & _ & _ & Hcontacts & _).
  exact (Hcontacts "+1").
Defined.

Lemma get_group_of_empty_response_is_none :
  fst (get_group "+1" "group" (-1) new_client) = inr None.
Proof.
  exact (proj2 (get_group_absent_iff_no_id "+1" "group" (-1) new_client [] eq_refl)
               eq_refl).
Defined.

End SilentRuns.

Section GroupedRuns.
#[local] Existing Instance Demo.set_order.
#[local] Existing Instance Demo.format.
#[local] Existing Instance Demo.types.
#[local] Existing Instance Scenarios.responses.
#[local] Existing Instance Scenarios.grouped.

(** A response with both entries: the legacy group wins. *)
Lemma update_group_prefers_v1 :
  fst (update_group "+1" "group" (Some "title") None None None new_client)
  = inr (Some (inl (JStr "legacy"))).
Proof.
  exact (proj1 (update_group_resolves_response
                  "+1" "group" (Some "title") None None None new_client
                  [("v1", JStr "legacy"); ("v2", JStr "new")] eq_refl)
               (JStr "legacy") (JStr "legacy") eq_refl eq_refl).
Defined.

Lemma list_groups_of_three :
  exists legacy v2,
    deserialize_all Group_deserialize [JStr "a"] = inr legacy /\
    deserialize_all GroupV2_deserialize [JStr "b"; JStr "c"] = inr v2 /\
    [inl (JStr "a"); inr (JStr "b"); inr (JStr "c")] = map inl legacy ++ map inr v2 /\
    length [inl (JStr "a" : Group); inr (JStr "b" : GroupV2); inr (JStr "c" : GroupV2)]
    = length [JStr "a"] + length [JStr "b"; JStr "c"].
Proof.
  exact (list_groups_legacy_first "+1" new_client
           (JObj [("legacyGroups", JList [JStr "a"]);
                  ("groups", JList [JStr "b"; JStr "c"])])
           [JStr "a"] [JStr "b"; JStr "c"]
           [inl (JStr "a"); inr (JStr "b"); inr (JStr "c")]
           eq_refl eq_refl eq_refl eq_refl).
Defined.

End GroupedRuns.

Section UnreachableRuns.
#[local] Existing Instance Demo.set_order.
#[local] Existing Instance Demo.format.
#[local] Existing Instance Demo.types.
#[local] Existing Instance Scenarios.responses.
#[local] Existing Instance Scenarios.unreachable.

Lemma verify_when_unreachable_raises :
  fst (verify "+1" "123456" new_client) = inl (RPCError "not connected").
Proof.
  pose proof (plain_commands_propagate_errors (RPCError "not connected") new_client
                (fun _ _ => eq_refl)) as (_ & Hverify & _).
  exact (Hverify "+1" "123456").
Defined.

End UnreachableRuns.

(** The stored message of room ["!b"] is found and listed. *)
Lemma get_of_stored_key :
  exists message all,
    DisappearingMessage.get (DisappearingMessage.Serving Scenarios.table) "!b" "$2"
    = inr (Some message) /\
    DisappearingMessage.room_id message = "!b" /\
    DisappearingMessage.mxid message = "$2" /\
    DisappearingMessage.get_all (DisappearingMessage.Serving Scenarios.table) = inr all /\
    message ∈ all.
Proof.
  refine (Repository.get_finds_stored_message Scenarios.table "!b" "$2" _).
  eexists. split; [apply list_elem_of_further, list_elem_of_here|]. done.
Defined.

(** Writing a new expiration for the stored key of room ["!a"] *)
Lemma update_of_stored_key :
  DisappearingMessage.get
    (snd (fst (DisappearingMessage.update
                 (DisappearingMessage.Serving Scenarios.table)
                 {| DisappearingMessage.room_id := "!a";
                    DisappearingMessage.mxid := "$1";
                    DisappearingMessage.expiration_seconds := 5;
                    DisappearingMessage.expiration_ts := Some 7%Z |})))
    "!a" "$1"
  = inr (Some {| DisappearingMessage.room_id := "!a";
                 DisappearingMessage.mxid := "$1";
                 DisappearingMessage.expiration_seconds := 5;
                 DisappearingMessage.expiration_ts := Some 7%Z |}).
Proof.
  refine (proj1 (proj1 (proj2 (proj2 (proj2
            (Repository.update_overwrites_or_reports
               (DisappearingMessage.Serving Scenarios.table)
               {| DisappearingMessage.room_id := "!a";
                  DisappearingMessage.mxid := "$1";
                  DisappearingMessage.expiration_seconds := 5;
                  DisappearingMessage.expiration_ts := Some 7%Z |}))))
            Scenarios.table eq_refl eq_refl _)).
  eexists. split; [apply list_elem_of_here|]. done.
Defined.

(** Inserting a message for a key that is not stored *)
Lemma insert_of_fresh_key :
  DisappearingMessage.get
    (snd (DisappearingMessage.insert
            (DisappearingMessage.Serving Scenarios.table)
            {| DisappearingMessage.room_id := "!a";
               DisappearingMessage.mxid := "$3";
               DisappearingMessage.expiration_seconds := 5;
               DisappearingMessage.expiration_ts := None |}))
    "!a" "$3"
  = inr (Some {| DisappearingMessage.room_id := "!a";
                 DisappearingMessage.mxid := "$3";
                 DisappearingMessage.expiration_seconds := 5;
                 DisappearingMessage.expiration_ts := None |}).
Proof.
  refine (proj2 (proj1 (Repository.insert_then_get Scenarios.table
                          {| DisappearingMessage.room_id := "!a";
                             DisappearingMessage.mxid := "$3";
                             DisappearingMessage.expiration_seconds := 5;
                             DisappearingMessage.expiration_ts := None |} _)
                       eq_refl)).
  intros (r & Hin & _ & Hmxid). cbn in Hmxid.
  repeat (apply elem_of_cons in Hin as [->|Hin]; [discriminate|]).
  by apply elem_of_nil in Hin.
Defined.
